(** * Twitch clip generator: moment scoring, window selection, subtitles

    A shallow embedding of [clip_generator.py] (class [TwitchClipGenerator]),
    of the job wrapper of [app.py] and of the constants of [config.py],
    followed by the properties of the moment-selection and clip-assembly
    pipeline.

    Modelling conventions.
    - Python [float] times are exact rationals ([Q]); rounding of binary
      floating point is not modelled.  Comparisons are the boolean ones the
      code performs.
    - Python [str] is [string]; [str.lower] and [str.strip] act on the ASCII
      range.
    - Python [int] is [Z]; list indices and lengths are [nat].
    - A transcript is the list stored under its ["segments"] key; a segment,
      a moment and a clip are records with the keys of the dictionaries the
      code builds. *)

From Stdlib Require Import ZArith QArith Qround List Bool Ascii String.
From Stdlib Require Import DecimalString Lia Lqa Sorted Permutation.
Import ListNotations.

Open Scope string_scope.
Open Scope Q_scope.

(** ** Python primitives *)

Module Py.

(** [a < b] on floats. *)
Definition Qltb (a b : Q) : bool := negb (Qle_bool b a).

(** [max(a, b)]: the first argument unless the second is strictly greater. *)
Definition max (a b : Q) : Q := if Qltb a b then b else a.

(** [min(a, b)]: the first argument unless the second is strictly smaller. *)
Definition min (a b : Q) : Q := if Qltb b a then b else a.

(** [needle in hay] on strings. *)
Fixpoint str_in (needle hay : string) : bool :=
  if prefix needle hay then true
  else match hay with
       | EmptyString => false
       | String _ rest => str_in needle rest
       end.

Definition lower_char (c : ascii) : ascii :=
  let n := nat_of_ascii c in
  if (65 <=? n)%nat && (n <=? 90)%nat then ascii_of_nat (n + 32) else c.

(** [s.lower()]. *)
Fixpoint lower (s : string) : string :=
  match s with
  | EmptyString => EmptyString
  | String c rest => String (lower_char c) (lower rest)
  end.

(** The characters [str.isspace] accepts below 128. *)
Definition isspace (c : ascii) : bool :=
  let n := nat_of_ascii c in
  ((9 <=? n)%nat && (n <=? 13)%nat) || ((28 <=? n)%nat && (n <=? 32)%nat).

Fixpoint lstrip (s : string) : string :=
  match s with
  | EmptyString => EmptyString
  | String c rest => if isspace c then lstrip rest else s
  end.

Fixpoint rstrip (s : string) : string :=
  match s with
  | EmptyString => EmptyString
  | String c rest =>
      match rstrip rest with
      | EmptyString => if isspace c then EmptyString else String c EmptyString
      | r => String c r
      end
  end.

(** [s.strip()]. *)
Definition strip (s : string) : string := rstrip (lstrip s).

(** [sep.join(parts)]. *)
Fixpoint join (sep : string) (parts : list string) : string :=
  match parts with
  | [] => EmptyString
  | [p] => p
  | p :: rest => p ++ sep ++ join sep rest
  end.

(** [str(n)] and the [d] format of an integer. *)
Definition str_of_int (n : Z) : string := NilZero.string_of_int (Z.to_int n).

(** The format [02d] or [03d] of a non-negative integer: zeros on the left
    up to [width] characters. *)
Fixpoint zeros (n : nat) : string :=
  match n with
  | O => EmptyString
  | S n' => String "0" (zeros n')
  end.

Definition zero_pad (width : nat) (n : Z) : string :=
  let digits := str_of_int n in
  zeros (width - String.length digits) ++ digits.

(** [round(x)] on a float: to the nearest integer, ties to the even one. *)
Definition round_half_even (x : Q) : Z :=
  let f := Qfloor x in
  let r := x - inject_Z f in
  if Qltb r (1 # 2) then f
  else if Qltb (1 # 2) r then (f + 1)%Z
  else if Z.even f then f else (f + 1)%Z.

(** [enumerate(xs, start)]. *)
Fixpoint enumerate {A} (xs : list A) (start : Z) : list (Z * A) :=
  match xs with
  | [] => []
  | x :: rest => (start, x) :: enumerate rest (start + 1)
  end.

(** The newline character. *)
Definition nl : string := String (ascii_of_nat 10) EmptyString.

(** [sum(xs)] on integers. *)
Definition sum (xs : list Z) : Z := fold_left Z.add xs 0%Z.

(** [xs[:k]]: a negative bound counts from the end of the list. *)
Definition slice_to {A} (xs : list A) (k : Z) : list A :=
  if (0 <=? k)%Z then firstn (Z.to_nat k) xs
  else firstn (Z.to_nat (Z.of_nat (List.length xs) + k)) xs.

(** [sorted(xs, key=key, reverse=True)]: stable, so elements with equal keys
    keep their original order. *)
Fixpoint insert_desc {A} (key : A -> Z) (x : A) (l : list A) : list A :=
  match l with
  | [] => [x]
  | y :: l' => if (key y <=? key x)%Z then x :: l
               else y :: insert_desc key x l'
  end.

Definition sorted_desc {A} (key : A -> Z) (xs : list A) : list A :=
  fold_right (insert_desc key) [] xs.

End Py.

(** ** Data model *)

Record Segment := mkSegment {
  seg_start : Q;
  seg_end : Q;
  seg_text : string
}.

Inductive Reason := high_energy | reaction_gap.

Record Moment := mkMoment {
  m_start : Q;
  m_end : Q;
  m_text : string;
  m_energy_score : Z;
  m_reason : Reason
}.

Record Clip := mkClip {
  c_start : Q;
  c_end : Q;
  c_duration : Q;
  c_text : string;
  c_segments : list Segment;
  c_reason : Reason
}.

(** ** [config.py] *)

Record Config := mkConfig {
  ENERGY_WORDS : list string;
  LAUGHTER_PATTERNS : list string;
  EXCLAMATION_WEIGHT : Z
}.

(** The values [config.py] ships with. *)
Definition config_py : Config := {|
  ENERGY_WORDS :=
    ["wow"; "omg"; "oh my god"; "holy"; "what"; "no way";
     "insane"; "crazy"; "wild"; "nuts"; "bonkers";
     "let's go"; "pog"; "poggers"; "clutch"; "sick";
     "unbelievable"; "incredible"; "amazing"; "awesome";
     "destroyed"; "wrecked"; "demolished"; "owned";
     "lmao"; "haha"; "lol"; "dead"; "dying";
     "wait"; "hold up"; "stop"; "pause";
     "perfect"; "clean"; "smooth"; "nasty"];
  LAUGHTER_PATTERNS := ["haha"; "hehe"; "lol"; "lmao"; "lmfao"; "rofl"];
  EXCLAMATION_WEIGHT := 2
|}.

(** ** [TwitchClipGenerator.find_viral_moments] *)

(** *** Method 1: high-energy phrases *)

Definition energy_words : list string :=
  ["wow"; "omg"; "insane"; "crazy"; "no way"; "let's go";
   "pog"; "holy"; "what"; "unbelievable"; "clutch"].

Definition laughs : list string := ["haha"; "lol"; "lmao"].

Definition energy_score (seg : Segment) : Z :=
  let text := Py.lower (seg_text seg) in
  let energy_score :=
    Py.sum (map (fun _ => 1%Z)
                (filter (fun word => Py.str_in word text) energy_words)) in
  let energy_score :=
    if Py.str_in "!" (seg_text seg) then (energy_score + 2)%Z
    else energy_score in
  let energy_score :=
    if existsb (fun laugh => Py.str_in laugh text) laughs
    then (energy_score + 1)%Z else energy_score in
  energy_score.

Definition high_energy_moment (seg : Segment) : Moment := {|
  m_start := seg_start seg;
  m_end := seg_end seg;
  m_text := seg_text seg;
  m_energy_score := energy_score seg;
  m_reason := high_energy
|}.

(** The first loop, appending to [moments]. *)
Fixpoint high_energy_loop (segments : list Segment) (moments : list Moment)
  : list Moment :=
  match segments with
  | [] => moments
  | seg :: rest =>
      if (2 <=? energy_score seg)%Z
      then high_energy_loop rest (moments ++ [high_energy_moment seg])
      else high_energy_loop rest moments
  end.

(** *** Method 2: gaps in speech *)

Definition gap_moment (current_end next_start : Q) : Moment := {|
  m_start := current_end;
  m_end := next_start;
  m_text := "[reaction moment]";
  m_energy_score := 1;
  m_reason := reaction_gap
|}.

Definition dummy_segment : Segment := mkSegment 0 0 "".

(** One iteration of the second loop, for index [i]. *)
Definition gap_step (segments : list Segment) (moments : list Moment)
  (i : nat) : list Moment :=
  let current_end := seg_end (nth i segments dummy_segment) in
  let next_start := seg_start (nth (i + 1) segments dummy_segment) in
  let gap := next_start - current_end in
  if Qle_bool 1 gap && Qle_bool gap 3
  then moments ++ [gap_moment current_end next_start]
  else moments.

(** [for i in range(len(segments) - 1)]. *)
Definition gap_loop (segments : list Segment) (moments : list Moment)
  : list Moment :=
  fold_left (gap_step segments) (seq 0 (List.length segments - 1)) moments.

(** The list [moments] when the third part of the function starts. *)
Definition moments_of (segments : list Segment) : list Moment :=
  gap_loop segments (high_energy_loop segments []).

(** *** Method 3: combine nearby moments into clips *)

(** [segments[-1]["end"] if segments else end + 30]. *)
Definition last_end (segments : list Segment) (end_ : Q) : Q :=
  match segments with
  | [] => end_ + 30
  | _ :: _ => seg_end (last segments dummy_segment)
  end.

(** The extension to the minimum duration: the new [start] and [end]. *)
Definition extend_window (segments : list Segment) (min_duration : Z)
  (start end_ : Q) : Q * Q :=
  if Py.Qltb (end_ - start) (inject_Z min_duration) then
    let extend := (inject_Z min_duration - (end_ - start)) / 2 in
    (Py.max 0 (start - extend),
     Py.min (last_end segments end_) (end_ + extend))
  else (start, end_).

(** The cap at the maximum duration: the new [end]. *)
Definition cap_window (max_duration : Z) (start end_ : Q) : Q :=
  if Py.Qltb (inject_Z max_duration) (end_ - start)
  then start + inject_Z max_duration
  else end_.

(** [start] and [end] of a moment when the overlap check is reached. *)
Definition window (segments : list Segment) (min_duration max_duration : Z)
  (moment : Moment) : Q * Q :=
  let (start, end_) :=
    extend_window segments min_duration (m_start moment) (m_end moment) in
  (start, cap_window max_duration start end_).

(** [not (end < clip["start"] or start > clip["end"])]. *)
Definition overlap_test (start end_ : Q) (clip : Clip) : bool :=
  negb (Py.Qltb end_ (c_start clip) || Py.Qltb (c_end clip) start).

(** The inner loop over [clips], which sets [overlap]. *)
Definition overlap (start end_ : Q) (clips : list Clip) : bool :=
  existsb (overlap_test start end_) clips.

(** [start <= s["start"] <= end or start <= s["end"] <= end]. *)
Definition in_window (start end_ : Q) (s : Segment) : bool :=
  (Qle_bool start (seg_start s) && Qle_bool (seg_start s) end_)
  || (Qle_bool start (seg_end s) && Qle_bool (seg_end s) end_).

Definition make_clip (segments : list Segment) (start end_ : Q)
  (moment : Moment) : Clip :=
  let clip_segments := filter (in_window start end_) segments in
  let clip_text := Py.join " " (map seg_text clip_segments) in
  {| c_start := start;
     c_end := end_;
     c_duration := end_ - start;
     c_text := Py.strip clip_text;
     c_segments := clip_segments;
     c_reason := m_reason moment |}.

(** The loop over the sorted moments; [clips] is the list built so far. *)
Fixpoint select_loop (segments : list Segment) (min_duration max_duration : Z)
  (sorted_moments : list Moment) (clips : list Clip) : list Clip :=
  match sorted_moments with
  | [] => clips
  | moment :: rest =>
      if (5 <=? List.length clips)%nat then clips
      else
        let (start, end_) :=
          window segments min_duration max_duration moment in
        if overlap start end_ clips
        then select_loop segments min_duration max_duration rest clips
        else select_loop segments min_duration max_duration rest
               (clips ++ [make_clip segments start end_ moment])
  end.

Definition find_viral_moments (transcript : list Segment)
  (min_duration max_duration : Z) : list Clip :=
  let segments := transcript in
  match segments with
  | [] => []
  | _ :: _ =>
      select_loop segments min_duration max_duration
        (Py.sorted_desc m_energy_score (moments_of segments)) []
  end.

(** ** [TwitchClipGenerator._format_time] and [_create_srt] *)

(** The fields [seconds] and [microseconds] of [timedelta(seconds=x)]. *)
Definition timedelta (x : Q) : Z * Z :=
  let us := Py.round_half_even (x * 1000000) in
  (((us / 1000000) mod 86400)%Z, (us mod 1000000)%Z).

Definition _format_time (seconds : Q) : string :=
  let (td_seconds, td_microseconds) := timedelta seconds in
  let hours := (td_seconds / 3600)%Z in
  let remainder := (td_seconds mod 3600)%Z in
  let minutes := (remainder / 60)%Z in
  let seconds := (remainder mod 60)%Z in
  let milliseconds := (td_microseconds / 1000)%Z in
  Py.zero_pad 2 hours ++ ":" ++ Py.zero_pad 2 minutes ++ ":"
  ++ Py.zero_pad 2 seconds ++ "," ++ Py.zero_pad 3 milliseconds.

(** The three writes of one caption block. *)
Definition srt_block (i : Z) (start end_ : Q) (text : string) : string :=
  Py.str_of_int i ++ Py.nl
  ++ _format_time start ++ " --> " ++ _format_time end_ ++ Py.nl
  ++ text ++ Py.nl ++ Py.nl.

(** The loop of [_create_srt]; [f] is what has been written so far. *)
Fixpoint srt_loop (items : list (Z * Segment)) (offset : Q) (f : string)
  : string :=
  match items with
  | [] => f
  | (i, seg) :: rest =>
      let start := seg_start seg - offset in
      let end_ := seg_end seg - offset in
      let text := Py.strip (seg_text seg) in
      if Py.Qltb start 0 || String.eqb text ""
      then srt_loop rest offset f
      else srt_loop rest offset (f ++ srt_block i start end_ text)
  end.

(** The content of the file [_create_srt] writes. *)
Definition _create_srt (segments : list Segment) (offset : Q) : string :=
  srt_loop (Py.enumerate segments 1) offset "".

(** ** Rendering and the pipeline: effects *)

(** One invocation of the external renderer: the trim range and, when a
    subtitle file was written for it, the content of that file. *)
Record FfmpegCall := mkCall {
  ff_input : string;
  ff_output : string;
  ff_ss : Q;
  ff_t : Q;
  ff_subtitles : option string
}.

(** The JSON object saved next to a clip. *)
Record Metadata := mkMetadata {
  md_source : string;
  md_start_time : Q;
  md_end_time : Q;
  md_duration : Q;
  md_transcript : string;
  md_reason : Reason
}.

(** What a run leaves behind: the renderer invocations, in order, and the
    metadata files written, in order, each with its path. *)
Record World := mkWorld {
  calls : list FfmpegCall;
  sidecars : list (string * Metadata)
}.

Definition empty_world : World := mkWorld [] [].

(** State passing over [World]. *)
Definition M (A : Type) : Type := World -> A * World.

Definition ret {A} (a : A) : M A := fun w => (a, w).

Definition bind {A B} (c : M A) (k : A -> M B) : M B :=
  fun w => let (a, w') := c w in k a w'.

Notation "x <- c ;; k" := (bind c (fun x => k))
  (at level 61, c at next level, right associativity).
Notation "c ;;; k" := (bind c (fun _ => k))
  (at level 61, right associativity).

Definition write_metadata (path : string) (md : Metadata) : M unit :=
  fun w => (tt, mkWorld (calls w) (sidecars w ++ [(path, md)])).

Inductive Status := queued | downloading | completed | failed.

Record Job := mkJob {
  status : Status;
  job_clips : list string;
  error : option string
}.

(** The request body of [/api/process]: absent keys take the defaults. *)
Record Options := mkOptions {
  opt_min_duration : option Z;
  opt_max_duration : option Z;
  opt_max_clips : option Z
}.

Definition get {A} (o : option A) (default : A) : A :=
  match o with Some a => a | None => default end.

Section Pipeline.

(** The external collaborators of one run.  [ffmpeg_exit n] tells whether the
    renderer invocation number [n] of the run (from 0) exits with status
    zero; [subprocess.run(..., check=True)] raises [CalledProcessError]
    otherwise.  Other exceptions are not modelled. *)
Variable ffmpeg_exit : nat -> bool.
Variable download_ok : bool.
Variable transcribed : list Segment.
Variable timestamp : string.
Variable output_dir : string.
Variable video_path : string.

Definition run_ffmpeg (cmd : FfmpegCall) : M bool :=
  fun w => (ffmpeg_exit (List.length (calls w)),
            mkWorld (calls w ++ [cmd]) (sidecars w)).

Definition create_vertical_video (input_path output_path : string)
  (start_time end_time : Q) (subtitle_segments : list Segment)
  (add_subtitles : bool) : M bool :=
  let duration := end_time - start_time in
  let subtitles :=
    match subtitle_segments with
    | [] => None
    | _ :: _ =>
        if add_subtitles
        then Some (_create_srt subtitle_segments start_time)
        else None
    end in
  run_ffmpeg (mkCall input_path output_path start_time duration subtitles).

(** [output_dir / f"clip_{timestamp}_{i}.mp4"] and its [.json] sibling. *)
Definition clip_stem (i : Z) : string :=
  output_dir ++ "/clip_" ++ timestamp ++ "_" ++ Py.str_of_int i.

Definition output_path_of (i : Z) : string := clip_stem i ++ ".mp4".

Definition meta_path_of (i : Z) : string := clip_stem i ++ ".json".

Definition metadata_of (vod_url : string) (clip : Clip) : Metadata := {|
  md_source := vod_url;
  md_start_time := c_start clip;
  md_end_time := c_end clip;
  md_duration := c_duration clip;
  md_transcript := c_text clip;
  md_reason := c_reason clip
|}.

(** The loop that creates the output clips. *)
Fixpoint render_loop (vod_url : string) (items : list (Z * Clip))
  (output_files : list string) : M (list string) :=
  match items with
  | [] => ret output_files
  | (i, clip) :: rest =>
      success <- create_vertical_video video_path (output_path_of i)
                   (c_start clip) (c_end clip) (c_segments clip) true ;;
      if success : bool then
        write_metadata (meta_path_of i) (metadata_of vod_url clip) ;;;
        render_loop vod_url rest (output_files ++ [output_path_of i])
      else render_loop vod_url rest output_files
  end.

Definition process_vod (vod_url : string) (clip_duration : Z * Z)
  (max_clips : Z) : M (list string) :=
  if negb download_ok then ret []
  else
    match transcribed with
    | [] => ret []
    | _ :: _ =>
        let clips :=
          find_viral_moments transcribed
            (fst clip_duration) (snd clip_duration) in
        match clips with
        | [] => ret []
        | _ :: _ =>
            render_loop vod_url
              (Py.enumerate (Py.slice_to clips max_clips) 1) []
        end
    end.

(** [process_job] of [app.py]: the final state of the job. *)
Definition process_job (vod_url : string) (options : Options) : M Job :=
  clips <- process_vod vod_url
             (get (opt_min_duration options) 15%Z,
              get (opt_max_duration options) 60%Z)
             (get (opt_max_clips options) 5%Z) ;;
  match clips with
  | _ :: _ => ret (mkJob completed clips None)
  | [] => ret (mkJob failed [] (Some "No clips generated"))
  end.

End Pipeline.

(** ** Auxiliary definitions for the statements *)

Definition qualifies (seg : Segment) : bool := (2 <=? energy_score seg)%Z.

(** What iteration [i] of the second loop appends. *)
Definition gap_at (segments : list Segment) (i : nat) : list Moment :=
  gap_step segments [] i.

Definition gap_moments (segments : list Segment) : list Moment :=
  flat_map (gap_at segments) (seq 0 (List.length segments - 1)).

Definition is_high_energy (m : Moment) : bool :=
  match m_reason m with high_energy => true | reaction_gap => false end.

Definition is_reaction_gap (m : Moment) : bool :=
  match m_reason m with high_energy => false | reaction_gap => true end.


(** Whitespace only. *)
Fixpoint all_space (s : string) : bool :=
  match s with
  | EmptyString => true
  | String c rest => Py.isspace c && all_space rest
  end.

Definition first_char (s : string) : option ascii :=
  match s with
  | EmptyString => None
  | String c _ => Some c
  end.

Fixpoint last_char (s : string) : option ascii :=
  match s with
  | EmptyString => None
  | String c EmptyString => Some c
  | String _ rest => last_char rest
  end.

Definition not_space (o : option ascii) : Prop :=
  match o with
  | None => True
  | Some c => Py.isspace c = false
  end.

(** The clip the third part builds from a moment, once accepted. *)
Definition clip_of (segments : list Segment) (min_duration max_duration : Z)
  (moment : Moment) : Clip :=
  make_clip segments
    (fst (window segments min_duration max_duration moment))
    (snd (window segments min_duration max_duration moment))
    moment.

(** [l1] is [l2] with some elements left out, the others in order. *)
Inductive Subseq {A : Type} : list A -> list A -> Prop :=
| Subseq_nil : Subseq [] []
| Subseq_skip x l1 l2 : Subseq l1 l2 -> Subseq l1 (x :: l2)
| Subseq_keep x l1 l2 : Subseq l1 l2 -> Subseq (x :: l1) (x :: l2).

(** Every clip of the list is clear of every clip before it. *)
Definition clear_of (earlier later : Clip) : Prop :=
  overlap_test (c_start later) (c_end later) earlier = false.

Definition pairwise_clear (clips : list Clip) : Prop :=
  ForallOrdPairs clear_of clips.

(** Scores do not increase along the list. *)
Definition score_ge (m1 m2 : Moment) : Prop :=
  (m_energy_score m2 <= m_energy_score m1)%Z.

(** The energy count in the words of the specification: one point for every
    occurrence of a phrase in the lower-cased text. *)
Fixpoint count_occurrences (needle hay : string) : nat :=
  ((if prefix needle hay then 1 else 0)
   + match hay with
     | EmptyString => 0
     | String _ rest => count_occurrences needle rest
     end)%nat.

Definition occurrence_score (seg : Segment) : Z :=
  let text := Py.lower (seg_text seg) in
  (Z.of_nat (list_sum (map (fun word => count_occurrences word text)
                           energy_words))
   + (if Py.str_in "!" (seg_text seg) then 2 else 0)
   + (if existsb (fun laugh => Py.str_in laugh text) laughs then 1 else 0))%Z.

(** The renderer invocation for item [(i, clip)] of the rendering loop. *)
Definition call_of (timestamp output_dir video_path : string)
  (item : Z * Clip) : FfmpegCall :=
  let clip := snd item in
  mkCall video_path (output_path_of timestamp output_dir (fst item))
    (c_start clip) (c_end clip - c_start clip)
    match c_segments clip with
    | [] => None
    | _ :: _ => Some (_create_srt (c_segments clip) (c_start clip))
    end.

(** The metadata file written for item [(i, clip)]. *)
Definition sidecar_of (timestamp output_dir vod_url : string)
  (item : Z * Clip) : string * Metadata :=
  (meta_path_of timestamp output_dir (fst item),
   metadata_of vod_url (snd item)).

(** The items whose render succeeds, when the first item of the list is
    renderer invocation number [n]. *)
Fixpoint rendered {A} (ffmpeg_exit : nat -> bool) (n : nat) (items : list A)
  : list A :=
  match items with
  | [] => []
  | item :: rest =>
      if ffmpeg_exit n then item :: rendered ffmpeg_exit (S n) rest
      else rendered ffmpeg_exit (S n) rest
  end.

(** The caption block [_create_srt] writes for item [(i, seg)], if any. *)
Definition caption_of (offset : Q) (item : Z * Segment) : string :=
  let start := seg_start (snd item) - offset in
  let end_ := seg_end (snd item) - offset in
  let text := Py.strip (seg_text (snd item)) in
  if Py.Qltb start 0 || String.eqb text "" then ""
  else srt_block (fst item) start end_ text.

(** The scorer with its phrase list, laughter patterns and exclamation
    weight read from a configuration, as the specification describes it. *)
Definition configured_score (cfg : Config) (seg : Segment) : Z :=
  let text := Py.lower (seg_text seg) in
  (Py.sum (map (fun _ => 1%Z)
               (filter (fun word => Py.str_in word text) (ENERGY_WORDS cfg)))
   + (if Py.str_in "!" (seg_text seg) then EXCLAMATION_WEIGHT cfg else 0)
   + (if existsb (fun laugh => Py.str_in laugh text) (LAUGHTER_PATTERNS cfg)
      then 1 else 0))%Z.

(** The analysis in a process whose [config] module holds [cfg]:
    [clip_generator.py] does not import [config] and reads none of its
    names, so the call is that of [find_viral_moments]. *)
Definition moments_under (cfg : Config) (segments : list Segment)
  : list Moment :=
  moments_of segments.

Definition find_viral_moments_under (cfg : Config)
  (transcript : list Segment) (min_duration max_duration : Z) : list Clip :=
  find_viral_moments transcript min_duration max_duration.

(** ** Example transcripts *)

Definition wow_wow : Segment := mkSegment 0 1 "wow wow".

Definition spoke : Segment := mkSegment 0 4 "so anyway".
Definition spoke_again : Segment := mkSegment 6 9 "as i was saying".

Definition two_hits : list Segment :=
  [mkSegment 0 1 "wow!"; mkSegment 30 31 "omg!"; mkSegment 60 61 "bye"].

Definition long_take : list Segment := [mkSegment 10 30 "wow!"].

Definition no_clip : Clip := mkClip 0 0 0 "" [] high_energy.

Definition cold_open : list Segment :=
  [mkSegment 10 14 "so"; mkSegment 20 21 "wow!"; mkSegment 40 41 "ok"].

Definition scenario_1 : Segment := mkSegment 10 12 "holy that was insane!".

Definition wild_nuts : Segment := mkSegment 0 1 "wild nuts".


(** ** [download_vod]: the platform label, and the URL check of [/api/process] *)

(** ["YouTube" if "youtube.com" in vod_url or "youtu.be" in vod_url else
    "Twitch"]. *)
Definition platform (vod_url : string) : string :=
  if Py.str_in "youtube.com" vod_url || Py.str_in "youtu.be" vod_url
  then "YouTube" else "Twitch".

(** The checks of the route [/api/process] on the ["url"] key of the request
    body: the error of the 400 response, or the URL the job is created
    with. *)
Definition api_process_url (url : option string) : string + string :=
  let vod_url := Py.strip (get url "") in
  if String.eqb vod_url "" then inl "No URL provided"
  else if negb (Py.str_in "twitch.tv" vod_url)
          && negb (Py.str_in "youtube.com" vod_url)
       then inl "Invalid URL. Must be Twitch or YouTube"
       else inr vod_url.

(** ** [process_upload_job] of [app.py] *)

(** The end of an upload job: the job record and the files removed. *)
Record UploadResult := mkUploadResult {
  up_job : Job;
  up_removed : list string
}.

Section Upload.

Variable ffmpeg_exit : nat -> bool.
Variable transcribed : list Segment.
Variable job_id : string.
Variable clip_folder : string.

(** The loop that creates the clips of an uploaded file; the output path is
    [os.path.join(CLIP_FOLDER, f"clip_{job_id}_{i}.mp4")]. *)
Fixpoint upload_loop (filepath : string) (items : list (Z * Clip))
  (output_files : list string) : M (list string) :=
  match items with
  | [] => ret output_files
  | (i, clip) :: rest =>
      let output_path := output_path_of job_id clip_folder i in
      success <- create_vertical_video ffmpeg_exit filepath output_path
                   (c_start clip) (c_end clip) (c_segments clip) true ;;
      if success : bool
      then upload_loop filepath rest (output_files ++ [output_path])
      else upload_loop filepath rest output_files
  end.

Definition process_upload_job (filepath : string) (options : Options)
  : M UploadResult :=
  match transcribed with
  | [] =>
      ret (mkUploadResult
             (mkJob failed [] (Some "No audio/transcription available")) [])
  | _ :: _ =>
      let clips_info :=
        find_viral_moments transcribed
          (get (opt_min_duration options) 15%Z)
          (get (opt_max_duration options) 60%Z) in
      output_files <-
        upload_loop filepath
          (Py.enumerate
             (Py.slice_to clips_info (get (opt_max_clips options) 5%Z)) 1)
          [] ;;
      ret (mkUploadResult
             (mkJob (match output_files with
                     | _ :: _ => completed
                     | [] => failed
                     end)
                    output_files None)
             [filepath])
  end.

End Upload.

(** ** [process_vod_list] of [batch_process.py] *)

(** One entry of the VOD list, with the answers of the downloader, of the
    transcriber and of the clock for it. *)
Record Vod := mkVod {
  vod_url : string;
  vod_options : Options;
  vod_download_ok : bool;
  vod_transcribed : list Segment;
  vod_timestamp : string;
  vod_video_path : string
}.

(** The loop over the VODs, extending [all_clips]. *)
Fixpoint process_vod_list (ffmpeg_exit : nat -> bool) (output_dir : string)
  (vods : list Vod) (all_clips : list string) : M (list string) :=
  match vods with
  | [] => ret all_clips
  | vod :: rest =>
      clips <- process_vod ffmpeg_exit (vod_download_ok vod)
                 (vod_transcribed vod) (vod_timestamp vod) output_dir
                 (vod_video_path vod) (vod_url vod)
                 (get (opt_min_duration (vod_options vod)) 15%Z,
                  get (opt_max_duration (vod_options vod)) 60%Z)
                 (get (opt_max_clips (vod_options vod)) 5%Z) ;;
      process_vod_list ffmpeg_exit output_dir rest (all_clips ++ clips)
  end.

(** ** Auxiliary definitions for the further statements *)

(** The four numbers [_format_time] prints. *)
Definition time_fields (x : Q) : Z * Z * Z * Z :=
  let (td_seconds, td_microseconds) := timedelta x in
  let remainder := (td_seconds mod 3600)%Z in
  ((td_seconds / 3600)%Z, (remainder / 60)%Z, (remainder mod 60)%Z,
   (td_microseconds / 1000)%Z).

(** Reading a decimal numeral. *)
Definition digit_of (c : ascii) : option Z :=
  let n := nat_of_ascii c in
  if (48 <=? n)%nat && (n <=? 57)%nat then Some (Z.of_nat (n - 48))
  else None.

Fixpoint read_dec (s : string) (acc : Z) : option Z :=
  match s with
  | EmptyString => Some acc
  | String c rest =>
      match digit_of c with
      | Some d => read_dec rest (10 * acc + d)%Z
      | None => None
      end
  end.

(** Reading an SRT timestamp [HH:MM:SS,mmm] back, in milliseconds. *)
Definition read_time (s : string) : option Z :=
  if (String.length s =? 12)%nat
     && String.eqb (substring 2 1 s) ":"
     && String.eqb (substring 5 1 s) ":"
     && String.eqb (substring 8 1 s) ","
  then
    match read_dec (substring 0 2 s) 0, read_dec (substring 3 2 s) 0,
          read_dec (substring 6 2 s) 0, read_dec (substring 9 3 s) 0 with
    | Some h, Some m, Some sec, Some ms =>
        Some (h * 3600000 + m * 60000 + sec * 1000 + ms)%Z
    | _, _, _, _ => None
    end
  else None.

(** The segments of a transcript are well formed when none starts before
    time 0, none ends before it starts and none starts after the last one
    ends (as in a transcript ordered by start time). *)
Definition well_formed (segments : list Segment) : Prop :=
  forall s, In s segments ->
    0 <= seg_start s
    /\ seg_start s <= seg_end s
    /\ seg_start s <= seg_end (last segments dummy_segment).

(** A segment [_create_srt] writes a caption block for. *)
Definition captioned (offset : Q) (seg : Segment) : bool :=
  negb (Py.Qltb (seg_start seg - offset) 0
        || String.eqb (Py.strip (seg_text seg)) "").

(** The three indicators the score is built from. *)
Definition phrases_in (seg : Segment) : list string :=
  filter (fun word => Py.str_in word (Py.lower (seg_text seg))) energy_words.

Definition has_exclamation (seg : Segment) : bool :=
  Py.str_in "!" (seg_text seg).

Definition has_laughter (seg : Segment) : bool :=
  existsb (fun laugh => Py.str_in laugh (Py.lower (seg_text seg))) laughs.

Definition shouted : Segment := mkSegment 3 5 "WOW, What a play!".
Definition spoken : Segment := mkSegment 8 9 "wow, what a play!".

(** The numerals of [zero_pad] read back, on the first [bound] numbers. *)
Definition pad_reads (width bound : nat) : bool :=
  forallb
    (fun k =>
       let n := Z.of_nat k in
       (String.length (Py.zero_pad width n) =? width)%nat
       && match read_dec (Py.zero_pad width n) 0 with
          | Some v => (v =? n)%Z
          | None => false
          end)
    (seq 0 bound).

(** The part of a renderer invocation that decides the picture: the trim
    range and the subtitle file. *)
Definition trim_of (call : FfmpegCall) : Q * Q * option string :=
  (ff_ss call, ff_t call, ff_subtitles call).

Definition dead_link : Vod :=
  mkVod "https://www.twitch.tv/videos/404" (mkOptions None None None)
    false [] "20250101_120000" "vod.mp4".
(** * Properties *)

(** ** Python primitives *)

Lemma Qltb_lt (a b : Q) : Py.Qltb a b = true <-> a < b.
Proof.
  unfold Py.Qltb. rewrite negb_true_iff.
  split; intro H.
  - apply Qnot_le_lt. intro Hle. apply Qle_bool_iff in Hle. congruence.
  - destruct (Qle_bool b a) eqn:E; [|reflexivity].
    apply Qle_bool_iff in E. exfalso. apply (Qlt_not_le _ _ H E).
Qed.

Lemma Qltb_ge (a b : Q) : Py.Qltb a b = false <-> b <= a.
Proof.
  unfold Py.Qltb. rewrite negb_false_iff. apply Qle_bool_iff.
Qed.

Lemma Qle_bool_false (a b : Q) : Qle_bool a b = false <-> b < a.
Proof.
  rewrite <- Qltb_lt. unfold Py.Qltb.
  destruct (Qle_bool a b); simpl; intuition congruence.
Qed.

Ltac qbool :=
  repeat match goal with
  | H : Py.Qltb _ _ = true |- _ => apply Qltb_lt in H
  | H : Py.Qltb _ _ = false |- _ => apply Qltb_ge in H
  | H : Qle_bool _ _ = true |- _ => apply Qle_bool_iff in H
  | H : Qle_bool _ _ = false |- _ => apply Qle_bool_false in H
  end.

Lemma prefix_app (n h : string) :
  prefix n h = true <-> exists b, h = n ++ b.
Proof.
  revert h. induction n as [|c n IH]; intros h.
  - split; [intros _; exists h; reflexivity | destruct h; reflexivity].
  - destruct h as [|d h]; simpl.
    + split; [discriminate | intros [b Hb]; discriminate].
    + destruct (ascii_dec c d) as [->|Hne].
      * rewrite IH. split; intros [b Hb]; exists b.
        -- now rewrite Hb.
        -- now injection Hb.
      * split; [discriminate|]. intros [b Hb]. injection Hb as ? ?.
        congruence.
Qed.

Lemma str_in_unfold (n h : string) :
  Py.str_in n h
  = prefix n h
    || match h with
       | EmptyString => false
       | String _ rest => Py.str_in n rest
       end.
Proof.
  destruct h; cbn [Py.str_in]; destruct (prefix n _); reflexivity.
Qed.

(** [needle in hay] holds exactly when [needle] is a substring of [hay]. *)
Lemma str_in_substring (n h : string) :
  Py.str_in n h = true <-> exists a b, h = a ++ n ++ b.
Proof.
  induction h as [|d h IH]; rewrite str_in_unfold, orb_true_iff, prefix_app.
  - split.
    + intros [[b Hb]|H]; [|discriminate]. exists "", b. exact Hb.
    + intros (a & b & Hab). left. destruct a; simpl in Hab.
      * eauto.
      * discriminate.
  - rewrite IH. split.
    + intros [[b Hb]|(a & b & Hab)].
      * exists "", b. exact Hb.
      * exists (String d a), b. simpl. now rewrite Hab.
    + intros (a & b & Hab). destruct a as [|c a]; simpl in Hab.
      * left. eauto.
      * right. injection Hab as _ Hab. eauto.
Qed.

Lemma fold_add_ones {A} (l : list A) (acc : Z) :
  fold_left Z.add (map (fun _ => 1%Z) l) acc
  = (acc + Z.of_nat (List.length l))%Z.
Proof.
  revert acc. induction l as [|x l IH]; intros acc; simpl map; simpl fold_left.
  - simpl. lia.
  - rewrite IH. simpl List.length. lia.
Qed.

Lemma sum_ones {A} (l : list A) :
  Py.sum (map (fun _ => 1%Z) l) = Z.of_nat (List.length l).
Proof. unfold Py.sum. rewrite fold_add_ones. lia. Qed.

(** [strip] removes a run of whitespace at each end and nothing else, and
    what is left neither starts nor ends with whitespace. *)
Lemma lstrip_decompose (s : string) :
  exists pre,
    s = pre ++ Py.lstrip s
    /\ all_space pre = true
    /\ not_space (first_char (Py.lstrip s)).
Proof.
  induction s as [|c rest (pre & Heq & Hpre & Hfirst)].
  - exists "". simpl. auto.
  - simpl. destruct (Py.isspace c) eqn:E.
    + exists (String c pre). simpl. rewrite E, Hpre, <- Heq. auto.
    + exists "". simpl. auto.
Qed.

Lemma rstrip_decompose (s : string) :
  exists post,
    s = Py.rstrip s ++ post
    /\ all_space post = true
    /\ not_space (last_char (Py.rstrip s)).
Proof.
  induction s as [|c rest (post & Heq & Hpost & Hlast)].
  - exists "". simpl. auto.
  - cbn [Py.rstrip]. destruct (Py.rstrip rest) as [|d r] eqn:Er.
    + simpl in Heq. subst post. destruct (Py.isspace c) eqn:E.
      * exists (String c rest). simpl. rewrite E, Hpost. auto.
      * exists rest. simpl. auto.
    + exists post. split; [simpl; now rewrite Heq|]. split; [exact Hpost|].
      exact Hlast.
Qed.

Lemma rstrip_first (s : string) :
  not_space (first_char s) -> not_space (first_char (Py.rstrip s)).
Proof.
  destruct s as [|c rest]; [auto|]. cbn [Py.rstrip first_char not_space].
  intros E. destruct (Py.rstrip rest); [rewrite E|]; exact E.
Qed.

Lemma strip_decompose (s : string) :
  exists pre post,
    s = pre ++ Py.strip s ++ post
    /\ all_space pre = true
    /\ all_space post = true
    /\ not_space (first_char (Py.strip s))
    /\ not_space (last_char (Py.strip s)).
Proof.
  destruct (lstrip_decompose s) as (pre & Heq & Hpre & Hfirst).
  destruct (rstrip_decompose (Py.lstrip s)) as (post & Heq' & Hpost & Hlast).
  exists pre, post. unfold Py.strip.
  rewrite <- Heq'. split; [exact Heq|]. split; [exact Hpre|].
  split; [exact Hpost|]. split; [now apply rstrip_first|exact Hlast].
Qed.

(** ** The scorer *)

Lemma high_energy_loop_spec (segments : list Segment) (moments : list Moment) :
  high_energy_loop segments moments
  = (moments ++ map high_energy_moment (filter qualifies segments))%list.
Proof.
  revert moments. induction segments as [|seg rest IH]; intros moments; simpl.
  - now rewrite app_nil_r.
  - unfold qualifies at 1. destruct (2 <=? energy_score seg)%Z.
    + rewrite IH, <- app_assoc. reflexivity.
    + apply IH.
Qed.

Lemma gap_step_app (segments : list Segment) (moments : list Moment) (i : nat) :
  gap_step segments moments i = (moments ++ gap_at segments i)%list.
Proof.
  unfold gap_at, gap_step.
  destruct (Qle_bool 1 _ && Qle_bool _ 3); simpl; [reflexivity|].
  now rewrite app_nil_r.
Qed.

Lemma gap_fold_spec (segments : list Segment) (idx : list nat)
  (moments : list Moment) :
  fold_left (gap_step segments) idx moments
  = (moments ++ flat_map (gap_at segments) idx)%list.
Proof.
  revert moments. induction idx as [|i idx IH]; intros moments; simpl.
  - now rewrite app_nil_r.
  - rewrite IH, gap_step_app, <- app_assoc. reflexivity.
Qed.

Lemma moments_of_spec (segments : list Segment) :
  moments_of segments
  = (map high_energy_moment (filter qualifies segments)
     ++ gap_moments segments)%list.
Proof.
  unfold moments_of, gap_loop. rewrite gap_fold_spec, high_energy_loop_spec.
  reflexivity.
Qed.

Lemma gap_at_reason (segments : list Segment) (i : nat) (m : Moment) :
  In m (gap_at segments i) -> m_reason m = reaction_gap.
Proof.
  unfold gap_at, gap_step.
  destruct (Qle_bool 1 _ && Qle_bool _ 3); simpl; [|tauto].
  intros [<-|[]]. reflexivity.
Qed.

Lemma gap_moments_reason (segments : list Segment) (m : Moment) :
  In m (gap_moments segments) -> m_reason m = reaction_gap.
Proof.
  unfold gap_moments. rewrite in_flat_map. intros (i & _ & Hi).
  eapply gap_at_reason; eauto.
Qed.

Lemma filter_all {A} (f : A -> bool) (l : list A) :
  (forall x, In x l -> f x = true) -> filter f l = l.
Proof.
  induction l as [|x l IH]; simpl; intros H; [reflexivity|].
  rewrite (H x (or_introl eq_refl)). f_equal. apply IH. auto.
Qed.

Lemma filter_none {A} (f : A -> bool) (l : list A) :
  (forall x, In x l -> f x = false) -> filter f l = [].
Proof.
  induction l as [|x l IH]; simpl; intros H; [reflexivity|].
  rewrite (H x (or_introl eq_refl)). apply IH. auto.
Qed.

Lemma high_energy_part (segments : list Segment) :
  filter is_high_energy (moments_of segments)
  = map high_energy_moment (filter qualifies segments).
Proof.
  rewrite moments_of_spec, filter_app.
  rewrite (filter_none _ (gap_moments segments)).
  - rewrite filter_all; [apply app_nil_r|].
    intros m Hm. apply in_map_iff in Hm as (s & <- & _). reflexivity.
  - intros m Hm. unfold is_high_energy.
    now rewrite (gap_moments_reason _ _ Hm).
Qed.

Lemma reaction_gap_part (segments : list Segment) :
  filter is_reaction_gap (moments_of segments) = gap_moments segments.
Proof.
  rewrite moments_of_spec, filter_app.
  rewrite (filter_all _ (gap_moments segments)).
  - rewrite filter_none; [reflexivity|].
    intros m Hm. apply in_map_iff in Hm as (s & <- & _). reflexivity.
  - intros m Hm. unfold is_reaction_gap.
    now rewrite (gap_moments_reason _ _ Hm).
Qed.

Lemma high_energy_moment_inj (s s' : Segment) :
  high_energy_moment s = high_energy_moment s' -> s = s'.
Proof.
  destruct s, s'. unfold high_energy_moment; simpl. intros H.
  injection H as -> -> -> _. reflexivity.
Qed.

(** ** C1: the lexical-energy pass *)

(** C1, as stated, fails: the segment with text "wow wow" holds two
    occurrences of an energy phrase, so the count per occurrence is 2 and the
    claim has a moment emitted; the code counts the phrase once, scores 1 and
    emits nothing. *)
Lemma C1_counterexample :
  occurrence_score wow_wow = 2%Z
  /\ energy_score wow_wow = 1%Z
  /\ moments_of [wow_wow] = []
  /\ ~ (In (high_energy_moment wow_wow) (moments_of [wow_wow])
        <-> (2 <= occurrence_score wow_wow)%Z).
Proof.
  assert (Hm : moments_of [wow_wow] = []) by (vm_compute; reflexivity).
  assert (Ho : occurrence_score wow_wow = 2%Z) by (vm_compute; reflexivity).
  split; [exact Ho|]. split; [vm_compute; reflexivity|].
  split; [exact Hm|].
  rewrite Hm, Ho. intros [_ H]. apply H. lia.
Qed.

(** C1 (amended): the energy score of a segment is the number of phrases of
    the fixed list that occur at least once in the lower-cased text, plus 2
    when the raw text contains an exclamation mark, plus 1 when one of the
    laughter patterns occurs in the lower-cased text; a high_energy moment
    is emitted for a segment exactly when the segment is in the transcript
    and this score is at least 2; the high_energy moments are those of the
    qualifying segments, in transcript order; start, end and text are the
    segment's. *)
Theorem C1_energy_score_emission (segments : list Segment) (seg : Segment) :
  energy_score seg
  = (Z.of_nat (List.length
       (filter (fun word => Py.str_in word (Py.lower (seg_text seg)))
               energy_words))
     + (if Py.str_in "!" (seg_text seg) then 2 else 0)
     + (if existsb (fun laugh => Py.str_in laugh (Py.lower (seg_text seg)))
                   laughs
        then 1 else 0))%Z
  /\ (In (high_energy_moment seg) (moments_of segments)
      <-> In seg segments /\ (2 <= energy_score seg)%Z)
  /\ filter is_high_energy (moments_of segments)
     = map high_energy_moment
         (filter (fun s => (2 <=? energy_score s)%Z) segments)
  /\ m_start (high_energy_moment seg) = seg_start seg
  /\ m_end (high_energy_moment seg) = seg_end seg
  /\ m_text (high_energy_moment seg) = seg_text seg
  /\ m_reason (high_energy_moment seg) = high_energy.
Proof.
  split; [|split; [|split; [|repeat split]]].
  - unfold energy_score. rewrite sum_ones.
    destruct (Py.str_in "!" _), (existsb _ laughs); lia.
  - rewrite moments_of_spec, in_app_iff, in_map_iff. split.
    + intros [(s & Heq & Hs)|Hg].
      * apply high_energy_moment_inj in Heq as ->.
        apply filter_In in Hs as [Hin Hq]. split; [exact Hin|].
        now apply Z.leb_le.
      * apply gap_moments_reason in Hg. discriminate.
    + intros [Hin Hq]. left. exists seg. split; [reflexivity|].
      apply filter_In. split; [exact Hin|]. now apply Z.leb_le.
  - apply high_energy_part.
Qed.

(** ** C2: the silence-gap pass *)

Lemma nth_error_nth_default {A} (l : list A) (i : nat) (a d : A) :
  nth_error l i = Some a -> nth i l d = a.
Proof.
  revert i; induction l as [|x l IH]; intros [|i]; simpl; try discriminate.
  - now intros [= ->].
  - apply IH.
Qed.

Lemma gap_at_pair (segments : list Segment) (i : nat) (a b : Segment) :
  nth_error segments i = Some a ->
  nth_error segments (S i) = Some b ->
  gap_at segments i
  = if Qle_bool 1 (seg_start b - seg_end a)
       && Qle_bool (seg_start b - seg_end a) 3
    then [gap_moment (seg_end a) (seg_start b)] else [].
Proof.
  intros Ha Hb. unfold gap_at, gap_step.
  rewrite Nat.add_1_r.
  rewrite (nth_error_nth_default _ _ _ dummy_segment Ha).
  rewrite (nth_error_nth_default _ _ _ dummy_segment Hb).
  reflexivity.
Qed.

Lemma adjacent_index (segments : list Segment) (i : nat) (b : Segment) :
  nth_error segments (S i) = Some b ->
  In i (seq 0 (List.length segments - 1)).
Proof.
  intros Hb. apply in_seq.
  assert (S i < List.length segments)%nat
    by (apply nth_error_Some; congruence).
  lia.
Qed.

Lemma index_adjacent (segments : list Segment) (i : nat) :
  In i (seq 0 (List.length segments - 1)) ->
  exists a b, nth_error segments i = Some a
              /\ nth_error segments (S i) = Some b.
Proof.
  intros Hi. apply in_seq in Hi.
  destruct (nth_error segments i) as [a|] eqn:Ea.
  - destruct (nth_error segments (S i)) as [b|] eqn:Eb; [eauto|].
    apply nth_error_None in Eb. lia.
  - apply nth_error_None in Ea. lia.
Qed.

Lemma gap_condition (x : Q) :
  Qle_bool 1 x && Qle_bool x 3 = true <-> 1 <= x <= 3.
Proof. now rewrite andb_true_iff, !Qle_bool_iff. Qed.



(** ** The selection loop *)

#[local] Hint Constructors Subseq : core.

Lemma Subseq_refl {A} (l : list A) : Subseq l l.
Proof. induction l; auto. Qed.

Lemma Subseq_nil_l {A} (l : list A) : Subseq [] l.
Proof. induction l; auto. Qed.

Lemma Subseq_In {A} (l1 l2 : list A) (x : A) :
  Subseq l1 l2 -> In x l1 -> In x l2.
Proof.
  induction 1 as [|y l1 l2 _ IH|y l1 l2 _ IH]; simpl; intuition.
Qed.

Lemma Subseq_length {A} (l1 l2 : list A) :
  Subseq l1 l2 -> (List.length l1 <= List.length l2)%nat.
Proof. induction 1; simpl; lia. Qed.

Lemma Subseq_firstn {A} (n : nat) (l1 l2 : list A) :
  Subseq l1 l2 -> Subseq (firstn n l1) l2.
Proof.
  intros H. revert n.
  induction H as [|y l1 l2 _ IH|y l1 l2 _ IH]; intros n.
  - rewrite firstn_nil. constructor.
  - apply Subseq_skip, IH.
  - destruct n; simpl.
    + apply Subseq_nil_l.
    + apply Subseq_keep, IH.
Qed.

Lemma Subseq_filter {A} (f : A -> bool) (l : list A) : Subseq (filter f l) l.
Proof. induction l as [|x l IH]; simpl; [|destruct (f x)]; auto. Qed.

Lemma Subseq_sorted {A} (R : A -> A -> Prop) (l1 l2 : list A) :
  Subseq l1 l2 -> StronglySorted R l2 -> StronglySorted R l1.
Proof.
  induction 1 as [|y l1 l2 Hs IH|y l1 l2 Hs IH]; intros Hsorted.
  - constructor.
  - apply IH. now inversion Hsorted.
  - inversion Hsorted as [|? ? Hl2 Hall]; subst. constructor; [auto|].
    rewrite Forall_forall in *. intros x Hx. apply Hall.
    eapply Subseq_In; eauto.
Qed.

(** The loop only appends, and what it appends are the clips of the moments
    it accepts, a subsequence of the moments it is given. *)
Lemma select_loop_accepts (segments : list Segment) (mn mx : Z)
  (ms : list Moment) (clips : list Clip) :
  exists accepted,
    Subseq accepted ms
    /\ select_loop segments mn mx ms clips
       = (clips ++ map (clip_of segments mn mx) accepted)%list.
Proof.
  revert clips. induction ms as [|m ms IH]; intros clips.
  - exists []. simpl. rewrite app_nil_r. auto.
  - cbn [select_loop]. destruct (5 <=? List.length clips)%nat.
    + exists []. simpl. rewrite app_nil_r. split; [apply Subseq_nil_l|auto].
    + destruct (window segments mn mx m) as [start end_] eqn:Ew.
      destruct (overlap start end_ clips).
      * destruct (IH clips) as (acc & Hsub & Heq). exists acc. auto.
      * destruct (IH (clips ++ [make_clip segments start end_ m])%list)
          as (acc & Hsub & Heq).
        exists (m :: acc). split; [auto|]. rewrite Heq, <- app_assoc.
        simpl. unfold clip_of at 2. rewrite Ew. reflexivity.
Qed.

(** The loop stops at five clips. *)
Lemma select_loop_length (segments : list Segment) (mn mx : Z)
  (ms : list Moment) (clips : list Clip) :
  (List.length (select_loop segments mn mx ms clips)
   <= Nat.max 5 (List.length clips))%nat.
Proof.
  revert clips. induction ms as [|m ms IH]; intros clips; cbn [select_loop].
  - lia.
  - destruct (5 <=? List.length clips)%nat eqn:E; [lia|].
    apply Nat.leb_gt in E.
    destruct (window segments mn mx m) as [start end_].
    destruct (overlap start end_ clips).
    + apply IH.
    + etransitivity; [apply IH|]. rewrite length_app.
      cbn [List.length]. lia.
Qed.

Lemma pairwise_clear_snoc (clips : list Clip) (c : Clip) :
  pairwise_clear clips ->
  Forall (fun earlier => clear_of earlier c) clips ->
  pairwise_clear (clips ++ [c]).
Proof.
  unfold pairwise_clear. induction clips as [|x clips IH]; simpl.
  - intros _ _. repeat constructor.
  - intros Hp Hall. inversion Hp as [|? ? Hx Hrest]; subst.
    inversion Hall as [|? ? Hxc Hall']; subst.
    constructor; [|auto].
    apply Forall_app. split; [exact Hx|]. constructor; [exact Hxc|constructor].
Qed.

Lemma overlap_false (start end_ : Q) (clips : list Clip) :
  overlap start end_ clips = false <->
  Forall (fun clip => overlap_test start end_ clip = false) clips.
Proof.
  unfold overlap. induction clips as [|x clips IH]; simpl.
  - split; [constructor|reflexivity].
  - rewrite orb_false_iff, IH. split.
    + intros [? ?]. now constructor.
    + intros H. inversion H; subst. auto.
Qed.

(** The loop keeps accepted clips pairwise clear of each other. *)
Lemma select_loop_clear (segments : list Segment) (mn mx : Z)
  (ms : list Moment) (clips : list Clip) :
  pairwise_clear clips ->
  pairwise_clear (select_loop segments mn mx ms clips).
Proof.
  revert clips. induction ms as [|m ms IH]; intros clips Hp;
    cbn [select_loop]; [exact Hp|].
  destruct (5 <=? List.length clips)%nat; [exact Hp|].
  destruct (window segments mn mx m) as [start end_].
  destruct (overlap start end_ clips) eqn:Eo; [now apply IH|].
  apply IH, pairwise_clear_snoc; [exact Hp|].
  apply overlap_false in Eo. exact Eo.
Qed.

Lemma overlap_test_sym (a b : Clip) :
  overlap_test (c_start a) (c_end a) b = overlap_test (c_start b) (c_end b) a.
Proof. unfold overlap_test. now rewrite orb_comm. Qed.

Lemma overlap_test_false (start end_ : Q) (clip : Clip) :
  overlap_test start end_ clip = false
  <-> end_ < c_start clip \/ c_end clip < start.
Proof.
  unfold overlap_test. now rewrite negb_false_iff, orb_true_iff, !Qltb_lt.
Qed.

Lemma ordered_pair_clear (clips : list Clip) (i j : nat) (ci cj : Clip) :
  pairwise_clear clips -> (i < j)%nat ->
  nth_error clips i = Some ci -> nth_error clips j = Some cj ->
  clear_of ci cj.
Proof.
  unfold pairwise_clear. intros Hp. revert i j.
  induction Hp as [|x l Hx _ IH]; intros i j Hij Hi Hj.
  - destruct i; discriminate.
  - destruct j as [|j]; [lia|]. simpl in Hj. destruct i as [|i]; simpl in Hi.
    + injection Hi as <-. rewrite Forall_forall in Hx. apply Hx.
      eapply nth_error_In; eauto.
    + apply (IH i j); [lia|assumption|assumption].
Qed.

Lemma find_viral_moments_accepts (transcript : list Segment) (mn mx : Z) :
  exists accepted,
    Subseq accepted (Py.sorted_desc m_energy_score (moments_of transcript))
    /\ find_viral_moments transcript mn mx
       = map (clip_of transcript mn mx) accepted.
Proof.
  unfold find_viral_moments. destruct transcript as [|s rest].
  - exists []. split; [apply Subseq_nil_l|reflexivity].
  - apply (select_loop_accepts (s :: rest) mn mx _ []).
Qed.

Lemma find_viral_moments_clear (transcript : list Segment) (mn mx : Z) :
  pairwise_clear (find_viral_moments transcript mn mx).
Proof.
  unfold find_viral_moments. destruct transcript as [|s rest].
  - constructor.
  - apply select_loop_clear. constructor.
Qed.

Lemma find_viral_moments_length (transcript : list Segment) (mn mx : Z) :
  (List.length (find_viral_moments transcript mn mx) <= 5)%nat.
Proof.
  unfold find_viral_moments. destruct transcript as [|s rest]; simpl; [lia|].
  etransitivity; [apply select_loop_length|]. simpl. lia.
Qed.

(** ** C3: accepted windows never overlap *)



(** ** Sorting by score *)

Lemma insert_desc_In (x y : Moment) (l : list Moment) :
  In x (Py.insert_desc m_energy_score y l) <-> x = y \/ In x l.
Proof.
  induction l as [|a l IH]; simpl.
  - intuition.
  - destruct (m_energy_score a <=? m_energy_score y)%Z; simpl.
    + intuition.
    + rewrite IH. intuition.
Qed.

Lemma sorted_desc_In (x : Moment) (l : list Moment) :
  In x (Py.sorted_desc m_energy_score l) <-> In x l.
Proof.
  induction l as [|a l IH]; simpl; [tauto|].
  rewrite insert_desc_In, IH. intuition.
Qed.

Lemma insert_desc_length (y : Moment) (l : list Moment) :
  List.length (Py.insert_desc m_energy_score y l) = S (List.length l).
Proof.
  induction l as [|a l IH]; simpl; [reflexivity|].
  destruct (m_energy_score a <=? m_energy_score y)%Z; simpl; congruence.
Qed.

Lemma sorted_desc_length (l : list Moment) :
  List.length (Py.sorted_desc m_energy_score l) = List.length l.
Proof.
  induction l as [|a l IH]; simpl; [reflexivity|].
  now rewrite insert_desc_length, IH.
Qed.

Lemma insert_desc_sorted (y : Moment) (l : list Moment) :
  StronglySorted score_ge l ->
  StronglySorted score_ge (Py.insert_desc m_energy_score y l).
Proof.
  induction 1 as [|a l Hs IH Ha]; simpl.
  - repeat constructor.
  - destruct (m_energy_score a <=? m_energy_score y)%Z eqn:E.
    + apply Z.leb_le in E. constructor; [now constructor|].
      constructor; [exact E|].
      rewrite Forall_forall in *. intros z Hz. specialize (Ha z Hz).
      unfold score_ge in *. lia.
    + apply Z.leb_gt in E. constructor; [exact IH|].
      rewrite Forall_forall in *. intros z Hz.
      apply insert_desc_In in Hz as [->|Hz].
      * unfold score_ge. lia.
      * auto.
Qed.

Lemma sorted_desc_sorted (l : list Moment) :
  StronglySorted score_ge (Py.sorted_desc m_energy_score l).
Proof.
  induction l as [|a l IH]; simpl; [constructor|].
  now apply insert_desc_sorted.
Qed.

Lemma find_viral_moments_origin (transcript : list Segment) (mn mx : Z)
  (c : Clip) :
  In c (find_viral_moments transcript mn mx) ->
  exists m, In m (moments_of transcript) /\ c = clip_of transcript mn mx m.
Proof.
  destruct (find_viral_moments_accepts transcript mn mx)
    as (acc & Hsub & ->).
  intros Hc. apply in_map_iff in Hc as (m & <- & Hm).
  exists m. split; [|reflexivity].
  apply sorted_desc_In. eapply Subseq_In; eauto.
Qed.

(** ** C4: duration bounds *)

Ltac qcases :=
  repeat match goal with
  | |- context [Py.Qltb ?a ?b] => destruct (Py.Qltb a b) eqn:?
  end;
  qbool.

Lemma window_ceiling (segments : list Segment) (mn mx : Z) (m : Moment) :
  snd (window segments mn mx m) - fst (window segments mn mx m)
  <= inject_Z mx.
Proof.
  unfold window.
  destruct (extend_window segments mn (m_start m) (m_end m)) as [s e].
  unfold cap_window. simpl. qcases; lra.
Qed.

Lemma window_floor (segments : list Segment) (mn mx : Z) (m : Moment) :
  (mn <= mx)%Z ->
  (m_end m - m_start m < inject_Z mn ->
   0 <= m_start m - (inject_Z mn - (m_end m - m_start m)) / 2
   /\ m_end m + (inject_Z mn - (m_end m - m_start m)) / 2
      <= last_end segments (m_end m)) ->
  inject_Z mn
  <= snd (window segments mn mx m) - fst (window segments mn mx m).
Proof.
  intros Hle Hclamp. rewrite Zle_Qle in Hle.
  unfold window, extend_window, cap_window, Py.max, Py.min.
  set (ext := (inject_Z mn - (m_end m - m_start m)) / 2) in *.
  assert (Hext : 2 * ext == inject_Z mn - (m_end m - m_start m))
    by (unfold ext; field).
  destruct (Py.Qltb (m_end m - m_start m) (inject_Z mn)) eqn:Eshort.
  - apply Qltb_lt in Eshort. destruct (Hclamp Eshort) as [H0 Hl].
    qcases; simpl; qcases; lra.
  - apply Qltb_ge in Eshort. simpl. qcases; lra.
Qed.




(** ** C5: size and order of the selection *)

Lemma slice_to_prefix {A} (xs : list A) (k : Z) :
  exists n, Py.slice_to xs k = firstn n xs.
Proof. unfold Py.slice_to. destruct (0 <=? k)%Z; eauto. Qed.

(** C5, as stated, fails for a negative [max_clips]: the slice
    [clips[:-1]] of two selected windows keeps one of them. *)
Lemma C5_counterexample :
  List.length (find_viral_moments two_hits 15 60) = 2%nat
  /\ List.length (Py.slice_to (find_viral_moments two_hits 15 60) (-1))
     = 1%nat
  /\ ~ (Z.of_nat
          (List.length
             (Py.slice_to (find_viral_moments two_hits 15 60) (-1)))
        <= -1)%Z.
Proof.
  split; [vm_compute; reflexivity|].
  split; [vm_compute; reflexivity|].
  vm_compute. intros H. apply H. reflexivity.
Qed.

(** C5 (amended): for a non-negative [max_clips] the windows handed to the
    renderer, [find_viral_moments(...)[:max_clips]], are at most [max_clips];
    for every [max_clips] they are at most five and at most as many as the
    moments found, and they are the clips of a subsequence of the moments
    sorted by descending score, so they appear in descending order of the
    score of their originating moment. *)
Theorem C5_selection_size_order (transcript : list Segment) (mn mx : Z)
  (max_clips : Z) :
  ((0 <= max_clips)%Z ->
   (Z.of_nat
      (List.length
         (Py.slice_to (find_viral_moments transcript mn mx) max_clips))
    <= max_clips)%Z)
  /\ (List.length
        (Py.slice_to (find_viral_moments transcript mn mx) max_clips)
      <= 5)%nat
  /\ (List.length
        (Py.slice_to (find_viral_moments transcript mn mx) max_clips)
      <= List.length (moments_of transcript))%nat
  /\ exists accepted,
       Subseq accepted
         (Py.sorted_desc m_energy_score (moments_of transcript))
       /\ Py.slice_to (find_viral_moments transcript mn mx) max_clips
          = map (clip_of transcript mn mx) accepted
       /\ StronglySorted score_ge accepted.
Proof.
  assert (Hex : exists accepted,
             Subseq accepted
               (Py.sorted_desc m_energy_score (moments_of transcript))
             /\ Py.slice_to (find_viral_moments transcript mn mx) max_clips
                = map (clip_of transcript mn mx) accepted).
  { destruct (find_viral_moments_accepts transcript mn mx)
      as (acc & Hsub & Heq).
    destruct (slice_to_prefix (find_viral_moments transcript mn mx)
                max_clips) as [n Hn].
    exists (firstn n acc). split; [now apply Subseq_firstn|].
    rewrite Hn, Heq. apply firstn_map. }
  pose proof (find_viral_moments_length transcript mn mx) as H5.
  destruct (slice_to_prefix (find_viral_moments transcript mn mx) max_clips)
    as [n Hn].
  split; [|split; [|split]].
  - intros Hk. unfold Py.slice_to.
    destruct (0 <=? max_clips)%Z eqn:E; [|apply Z.leb_gt in E; lia].
    rewrite length_firstn. lia.
  - rewrite Hn, length_firstn. lia.
  - destruct Hex as (acc & Hsub & ->). rewrite length_map.
    apply Subseq_length in Hsub. now rewrite sorted_desc_length in Hsub.
  - destruct Hex as (acc & Hsub & Heq). exists acc.
    split; [exact Hsub|]. split; [exact Heq|].
    eapply Subseq_sorted; [exact Hsub|apply sorted_desc_sorted].
Qed.

Lemma C5_selection_size_order_witness :
  (Z.of_nat
     (List.length (Py.slice_to (find_viral_moments two_hits 15 60) 1))
   <= 1)%Z.
Proof.
  apply (proj1 (C5_selection_size_order two_hits 15 60 1)). lia.
Defined.

(** ** C6: segments and text of a window *)

Lemma in_window_iff (a b : Q) (s : Segment) :
  in_window a b s = true
  <-> (a <= seg_start s /\ seg_start s <= b)
      \/ (a <= seg_end s /\ seg_end s <= b).
Proof.
  unfold in_window. now rewrite orb_true_iff, !andb_true_iff, !Qle_bool_iff.
Qed.



(** ** C7: the subtitle track *)

Lemma srt_loop_spec (items : list (Z * Segment)) (offset : Q) (f : string) :
  srt_loop items offset f
  = f ++ String.concat "" (map (caption_of offset) items).
Proof.
  revert f. induction items as [|[i seg] rest IH]; intros f.
  - simpl. induction f; simpl; congruence.
  - cbn [srt_loop map]. unfold caption_of at 1. cbn [fst snd].
    assert (Hc : forall s l, String.concat "" (s :: l)
                             = s ++ String.concat "" l).
    { intros s [|x l]; simpl; [|reflexivity].
      induction s; simpl; congruence. }
    rewrite Hc.
    destruct (Py.Qltb (seg_start seg - offset) 0
              || String.eqb (Py.strip (seg_text seg)) "").
    + apply IH.
    + rewrite IH. clear. induction f; simpl; congruence.
Qed.

(** The file holds one caption block for every segment that is kept, re-based
    by the offset, and the number of a block is the position of its segment
    among all the segments of the window, kept or not. *)
Lemma create_srt_blocks (segments : list Segment) (offset : Q) :
  _create_srt segments offset
  = String.concat "" (map (caption_of offset) (Py.enumerate segments 1)).
Proof. unfold _create_srt. now rewrite srt_loop_spec. Qed.

(** C7 (code evaluated at the failing input): the window selected in the
    transcript [cold_open] starts at 13 and holds the segment from 10 to 14,
    whose re-based start is negative; that segment is skipped but counted,
    so the only caption block of the subtitle track is numbered 2. *)
Theorem C7_srt_numbering_gap :
  exists c,
    find_viral_moments cold_open 15 60 = [c]
    /\ c_start c == 13
    /\ c_segments c = [mkSegment 10 14 "so"; mkSegment 20 21 "wow!"]
    /\ _create_srt (c_segments c) (c_start c)
       = "2" ++ Py.nl ++ "00:00:07,000 --> 00:00:08,000" ++ Py.nl
         ++ "wow!" ++ Py.nl ++ Py.nl.
Proof.
  eexists. split; [vm_compute; reflexivity|].
  split; [vm_compute; reflexivity|].
  split; vm_compute; reflexivity.
Qed.

(** ** C8: end-to-end scenario 1 *)

(** C8, as stated, fails: the text holds two energy phrases, "holy" and
    "insane", so the score is 4, not 3; and the window runs from 3.5 to 12,
    not from 8.5 to 15.5. *)
Lemma C8_counterexample :
  energy_score scenario_1 <> 3%Z
  /\ exists c,
       find_viral_moments [scenario_1] 15 60 = [c]
       /\ ~ (c_start c == 8.5)
       /\ ~ (c_end c == 15.5).
Proof.
  split; [vm_compute; discriminate|].
  eexists. split; [vm_compute; reflexivity|].
  split; vm_compute; discriminate.
Qed.

(** C8 (amended): for the one-segment transcript of scenario 1 with
    minimum 15 and maximum 60 the energy score is 4 (1 for "holy", 1 for
    "insane", 2 for the exclamation mark), exactly one moment is found, a
    high_energy one, and exactly one window is returned: the extension by
    6.5 seconds on each side puts the start at 3.5 and is clamped at the end
    of the last segment, 12, so the window spans 3.5 to 12 and lasts 8.5
    seconds. *)
Theorem C8_scenario_1 :
  energy_score scenario_1 = 4%Z
  /\ filter (fun word => Py.str_in word (Py.lower (seg_text scenario_1)))
       energy_words = ["insane"; "holy"]
  /\ moments_of [scenario_1]
     = [mkMoment 10 12 "holy that was insane!" 4 high_energy]
  /\ exists c,
       find_viral_moments [scenario_1] 15 60 = [c]
       /\ c_start c == 3.5
       /\ c_end c == 12
       /\ c_duration c == 8.5
       /\ c_text c = "holy that was insane!"
       /\ c_segments c = [scenario_1]
       /\ c_reason c = high_energy.
Proof.
  split; [vm_compute; reflexivity|].
  split; [vm_compute; reflexivity|].
  split; [vm_compute; reflexivity|].
  eexists. split; [vm_compute; reflexivity|].
  repeat split; vm_compute; reflexivity.
Qed.

(** ** C9: render failures are isolated per window *)

Section Rendering.

Variable ffmpeg_exit : nat -> bool.
Variables timestamp output_dir video_path vod_url : string.

Lemma render_loop_spec (items : list (Z * Clip)) (output_files : list string)
  (w : World) :
  render_loop ffmpeg_exit timestamp output_dir video_path vod_url
    items output_files w
  = ((output_files
      ++ map (fun item => output_path_of timestamp output_dir (fst item))
           (rendered ffmpeg_exit (List.length (calls w)) items))%list,
     mkWorld
       (calls w ++ map (call_of timestamp output_dir video_path) items)
       (sidecars w
        ++ map (sidecar_of timestamp output_dir vod_url)
             (rendered ffmpeg_exit (List.length (calls w)) items))).
Proof.
  revert output_files w.
  induction items as [|[i clip] rest IH]; intros output_files w.
  - simpl. unfold ret. rewrite !app_nil_r. now destruct w.
  - cbn [render_loop rendered map]. unfold bind at 1.
    unfold create_vertical_video, run_ffmpeg.
    assert (Hcall :
              mkCall video_path (output_path_of timestamp output_dir i)
                (c_start clip) (c_end clip - c_start clip)
                match c_segments clip with
                | [] => None
                | _ :: _ => Some (_create_srt (c_segments clip) (c_start clip))
                end
              = call_of timestamp output_dir video_path (i, clip))
      by reflexivity.
    rewrite Hcall.
    destruct (ffmpeg_exit (List.length (calls w))).
    + unfold bind, write_metadata. rewrite IH. cbn [calls sidecars].
      rewrite length_app, Nat.add_1_r. cbn [map fst].
      rewrite <- !app_assoc. reflexivity.
    + rewrite IH. cbn [calls sidecars].
      rewrite length_app, Nat.add_1_r.
      rewrite <- !app_assoc. reflexivity.
Qed.

End Rendering.

Lemma rendered_Subseq {A} (f : nat -> bool) (n : nat) (items : list A) :
  Subseq (rendered f n items) items.
Proof.
  revert n. induction items as [|x items IH]; intros n; simpl.
  - constructor.
  - destruct (f n); [apply Subseq_keep|apply Subseq_skip]; apply IH.
Qed.

Lemma rendered_In {A} (f : nat -> bool) (n : nat) (items : list A) (x : A) :
  In x (rendered f n items)
  <-> exists k, nth_error items k = Some x /\ f (n + k)%nat = true.
Proof.
  revert n. induction items as [|y items IH]; intros n; simpl.
  - split; [tauto|]. intros ([|k] & Hk & _); discriminate.
  - split.
    + intros H. destruct (f n) eqn:E.
      * destruct H as [->|H].
        -- exists 0%nat. rewrite Nat.add_0_r. auto.
        -- apply IH in H as (k & Hk & Hf). exists (S k).
           rewrite Nat.add_succ_r. auto.
      * apply IH in H as (k & Hk & Hf). exists (S k).
        rewrite Nat.add_succ_r. auto.
    + intros ([|k] & Hk & Hf); simpl in Hk.
      * injection Hk as ->. rewrite Nat.add_0_r in Hf. rewrite Hf. now left.
      * rewrite Nat.add_succ_r in Hf.
        assert (In x (rendered f (S n) items)) by (apply IH; eauto).
        destruct (f n); [now right|assumption].
Qed.

Lemma enumerate_nth {A} (xs : list A) (start : Z) (k : nat) (item : Z * A) :
  nth_error (Py.enumerate xs start) k = Some item ->
  fst item = (start + Z.of_nat k)%Z.
Proof.
  revert start k. induction xs as [|x xs IH]; intros start [|k]; simpl;
    try discriminate.
  - intros [= <-]. simpl. lia.
  - intros H. apply IH in H. lia.
Qed.

Lemma process_vod_render (ffmpeg_exit : nat -> bool) (download_ok : bool)
  (transcribed : list Segment) (timestamp output_dir video_path : string)
  (vod_url : string) (clip_duration : Z * Z) (max_clips : Z) :
  process_vod ffmpeg_exit download_ok transcribed timestamp output_dir
    video_path vod_url clip_duration max_clips empty_world
  = render_loop ffmpeg_exit timestamp output_dir video_path vod_url
      (Py.enumerate
         (if download_ok
          then Py.slice_to
                 (find_viral_moments transcribed
                    (fst clip_duration) (snd clip_duration))
                 max_clips
          else [])
         1)
      [] empty_world.
Proof.
  unfold process_vod. destruct download_ok; [|reflexivity]. cbn [negb].
  destruct transcribed as [|s rest] eqn:Et.
  - simpl. unfold Py.slice_to.
    destruct (0 <=? max_clips)%Z; rewrite firstn_nil; reflexivity.
  - rewrite <- Et.
    destruct (find_viral_moments transcribed _ _) eqn:Ef; [|reflexivity].
    unfold Py.slice_to.
    destruct (0 <=? max_clips)%Z; rewrite firstn_nil; reflexivity.
Qed.

(** C9: whatever the outcomes [ffmpeg_exit] of the renderer invocations, the
    rendering loop invokes the renderer once for every window, in order; the
    clip list it returns holds the output paths of exactly the windows whose
    invocation succeeded (window number [k], from 0, is among them exactly
    when [ffmpeg_exit k] holds), in order; one metadata file is written for
    each of them and for no other; and the job built on the run ends in
    status [failed] exactly when the clip list of the run is empty. *)
Theorem C9_render_isolation (ffmpeg_exit : nat -> bool)
  (timestamp output_dir video_path vod_url : string) (windows : list Clip) :
  let items := Py.enumerate windows 1 in
  let run :=
    render_loop ffmpeg_exit timestamp output_dir video_path vod_url
      items [] empty_world in
  calls (snd run) = map (call_of timestamp output_dir video_path) items
  /\ List.length (calls (snd run)) = List.length windows
  /\ fst run
     = map (fun item => output_path_of timestamp output_dir (fst item))
         (rendered ffmpeg_exit 0 items)
  /\ sidecars (snd run)
     = map (sidecar_of timestamp output_dir vod_url)
         (rendered ffmpeg_exit 0 items)
  /\ Subseq (rendered ffmpeg_exit 0 items) items
  /\ (forall k item,
         nth_error items k = Some item ->
         (In item (rendered ffmpeg_exit 0 items) <-> ffmpeg_exit k = true))
  /\ (forall download_ok transcribed options,
         let selected :=
           if download_ok : bool
           then Py.slice_to
                  (find_viral_moments transcribed
                     (get (opt_min_duration options) 15%Z)
                     (get (opt_max_duration options) 60%Z))
                  (get (opt_max_clips options) 5%Z)
           else [] in
         let job :=
           fst (process_job ffmpeg_exit download_ok transcribed timestamp
                  output_dir video_path vod_url options empty_world) in
         let clip_list :=
           fst (render_loop ffmpeg_exit timestamp output_dir video_path
                  vod_url (Py.enumerate selected 1) [] empty_world) in
         (status job = failed <-> clip_list = [])
         /\ (status job = completed <-> clip_list <> [])
         /\ job_clips job = clip_list).
Proof.
  intros items run. subst run. rewrite render_loop_spec.
  cbn [fst snd calls sidecars empty_world List.length app].
  split; [reflexivity|]. split.
  { rewrite length_map. subst items. generalize 1%Z.
    induction windows as [|c l IH]; intros z; simpl; [reflexivity|].
    now rewrite IH. }
  split; [reflexivity|]. split; [reflexivity|].
  split; [apply rendered_Subseq|]. split.
  - intros k item Hk. rewrite rendered_In. split.
    + intros (k' & Hk' & Hf). simpl in Hf.
      apply enumerate_nth in Hk. apply enumerate_nth in Hk'.
      assert (k' = k) by lia. now subst.
    + intros Hf. exists k. auto.
  - intros download_ok transcribed options.
    unfold process_job, bind.
    rewrite process_vod_render. cbn [fst snd].
    destruct (render_loop _ _ _ _ _ (Py.enumerate _ 1) [] empty_world)
      as [[|p ps] w']; unfold ret; cbn [fst status job_clips].
    + repeat split; try reflexivity; try discriminate. intros H; now elim H.
    + repeat split; try reflexivity; try discriminate.
Qed.

Lemma C9_render_isolation_witness :
  let items := Py.enumerate (find_viral_moments two_hits 15 60) 1 in
  In (nth 1 items (0%Z, no_clip))
     (rendered (fun n => Nat.eqb n 1) 0 items)
  <-> Nat.eqb 1 1 = true.
Proof.
  intros items.
  refine (proj1 (proj2 (proj2 (proj2 (proj2 (proj2
            (C9_render_isolation (fun n => Nat.eqb n 1)
               "20250101_120000" "./clips" "vod.mp4"
               "https://www.twitch.tv/videos/1"
               (find_viral_moments two_hits 15 60)))))))
            1%nat (nth 1 items (0%Z, no_clip)) _).
  vm_compute; reflexivity.
Defined.

(** ** C10: the configuration module does not reach the scorer *)


(** * Further properties of the code *)

(** ** The energy score *)

Lemma energy_score_formula (seg : Segment) :
  energy_score seg
  = (Z.of_nat (List.length (phrases_in seg))
     + (if has_exclamation seg then 2 else 0)
     + (if has_laughter seg then 1 else 0))%Z.
Proof.
  unfold energy_score, phrases_in, has_exclamation, has_laughter.
  rewrite sum_ones.
  destruct (Py.str_in "!" _), (existsb _ laughs); lia.
Qed.

Lemma phrases_in_bound (seg : Segment) :
  (List.length (phrases_in seg) <= 11)%nat.
Proof.
  unfold phrases_in.
  etransitivity; [apply filter_length_le|]. reflexivity.
Qed.

(** X1: the energy score of a segment lies between 0 and 14, whatever its
    text: at most 11 phrases, 2 for the exclamation mark, 1 for laughter. *)
Theorem energy_score_range (seg : Segment) :
  (0 <= energy_score seg <= 14)%Z.
Proof.
  rewrite energy_score_formula. pose proof (phrases_in_bound seg).
  destruct (has_exclamation seg), (has_laughter seg); lia.
Qed.

(** X2: a segment whose text contains an exclamation mark always gives a
    high_energy moment, and a segment with no energy phrase and no
    exclamation mark never does, laughter or not. *)
Theorem exclamation_decides (segments : list Segment) (seg : Segment) :
  In seg segments ->
  (has_exclamation seg = true ->
   In (high_energy_moment seg) (moments_of segments))
  /\ (has_exclamation seg = false -> phrases_in seg = [] ->
      ~ In (high_energy_moment seg) (moments_of segments)).
Proof.
  intros Hin. rewrite moments_of_spec. split.
  - intros He. apply in_app_iff. left. apply in_map, filter_In.
    split; [exact Hin|]. unfold qualifies. apply Z.leb_le.
    rewrite energy_score_formula, He.
    destruct (has_laughter seg); lia.
  - intros He Hp Hm. apply in_app_iff in Hm as [Hm|Hm].
    + apply in_map_iff in Hm as (s & Heq & Hs).
      apply high_energy_moment_inj in Heq as ->.
      apply filter_In in Hs as [_ Hq]. unfold qualifies in Hq.
      apply Z.leb_le in Hq. rewrite energy_score_formula, He, Hp in Hq.
      simpl in Hq. destruct (has_laughter seg); lia.
    + apply gap_moments_reason in Hm. discriminate.
Qed.

Lemma exclamation_decides_witness :
  In (high_energy_moment (mkSegment 0 1 "wow!")) (moments_of two_hits).
Proof.
  apply (proj1 (exclamation_decides two_hits (mkSegment 0 1 "wow!")
                  (or_introl eq_refl))).
  vm_compute; reflexivity.
Defined.

Lemma lower_app (a b : string) :
  Py.lower (a ++ b) = Py.lower a ++ Py.lower b.
Proof. induction a as [|c a IH]; simpl; [reflexivity|]. now rewrite IH. Qed.

Lemma lower_char_bang (c : ascii) :
  Py.lower_char c = "!"%char -> c = "!"%char.
Proof.
  destruct c as [[] [] [] [] [] [] [] []]; vm_compute; intros H;
    first [reflexivity | discriminate H].
Qed.

Lemma lower_split (t a u : string) :
  Py.lower t = a ++ u ->
  exists a' u', t = a' ++ u' /\ Py.lower a' = a /\ Py.lower u' = u.
Proof.
  revert t. induction a as [|c a IH]; intros t H.
  - exists "", t. auto.
  - destruct t as [|d t]; [discriminate|]. simpl in H.
    injection H as Hc Ht. destruct (IH _ Ht) as (a' & u' & -> & <- & <-).
    exists (String d a'), u'. simpl. rewrite Hc. auto.
Qed.

Lemma exclamation_lower (t : string) :
  Py.str_in "!" (Py.lower t) = Py.str_in "!" t.
Proof.
  apply eq_true_iff_eq. rewrite !str_in_substring. split.
  - intros (a & b & H). apply lower_split in H as (a' & u' & -> & _ & Hu).
    destruct u' as [|c u']; [discriminate|]. simpl in Hu.
    injection Hu as Hc _. apply lower_char_bang in Hc as ->.
    exists a', u'. reflexivity.
  - intros (a & b & ->). exists (Py.lower a), (Py.lower b).
    now rewrite !lower_app.
Qed.

(** X3: scoring is case-insensitive: two segments whose texts have the same
    lower-cased form get the same energy score. *)
Theorem energy_score_case_insensitive (a b : Segment) :
  Py.lower (seg_text a) = Py.lower (seg_text b) ->
  energy_score a = energy_score b.
Proof.
  intros H. rewrite !energy_score_formula.
  unfold phrases_in, has_exclamation, has_laughter.
  rewrite <- (exclamation_lower (seg_text a)).
  rewrite <- (exclamation_lower (seg_text b)).
  now rewrite H.
Qed.

Lemma energy_score_case_insensitive_witness :
  energy_score shouted = energy_score spoken.
Proof.
  apply (energy_score_case_insensitive shouted spoken).
  vm_compute; reflexivity.
Defined.

Lemma str_in_extend (w t p q : string) :
  Py.str_in w t = true -> Py.str_in w (p ++ t ++ q) = true.
Proof.
  rewrite !str_in_substring. intros (a & b & ->).
  exists (p ++ a), (b ++ q).
  clear. induction p as [|c p IH]; simpl.
  - induction a as [|c a IH]; simpl.
    + induction w as [|c w IH]; simpl; [reflexivity|]. now rewrite IH.
    + now rewrite IH.
  - now rewrite IH.
Qed.

Lemma filter_length_mono {A} (f g : A -> bool) (l : list A) :
  (forall x, f x = true -> g x = true) ->
  (List.length (filter f l) <= List.length (filter g l))%nat.
Proof.
  intros H. induction l as [|x l IH]; simpl; [lia|].
  destruct (f x) eqn:E.
  - rewrite (H x E). simpl. lia.
  - destruct (g x); simpl; lia.
Qed.

(** X4: text around a passage never lowers its score: if the text of [a]
    occurs inside the text of [b], the score of [b] is at least that of
    [a]. *)
Theorem energy_score_monotone (a b : Segment) (before after : string) :
  seg_text b = before ++ seg_text a ++ after ->
  (energy_score a <= energy_score b)%Z.
Proof.
  intros H. rewrite !energy_score_formula.
  assert (Hl : forall w, Py.str_in w (Py.lower (seg_text a)) = true ->
                         Py.str_in w (Py.lower (seg_text b)) = true).
  { intros w Hw. rewrite H, !lower_app. now apply str_in_extend. }
  assert (Hp : (List.length (phrases_in a) <= List.length (phrases_in b))%nat)
    by (apply filter_length_mono; exact Hl).
  assert (He : has_exclamation a = true -> has_exclamation b = true).
  { unfold has_exclamation. intros Ha. rewrite H. now apply str_in_extend. }
  assert (Hg : has_laughter a = true -> has_laughter b = true).
  { unfold has_laughter. rewrite !existsb_exists.
    intros (w & Hw & Hin). eauto. }
  destruct (has_exclamation a), (has_exclamation b),
    (has_laughter a), (has_laughter b);
    try (specialize (He eq_refl); discriminate);
    try (specialize (Hg eq_refl); discriminate); lia.
Qed.

Lemma energy_score_monotone_witness :
  (energy_score (mkSegment 0 1 "what")
   <= energy_score (mkSegment 0 1 "so whatever, lol"))%Z.
Proof.
  apply (energy_score_monotone (mkSegment 0 1 "what")
           (mkSegment 0 1 "so whatever, lol") "so " "ever, lol").
  reflexivity.
Defined.

(** ** The moments the scorer emits *)

Lemma gap_moments_char (segments : list Segment) (m : Moment) :
  In m (gap_moments segments) ->
  exists i a b,
    nth_error segments i = Some a
    /\ nth_error segments (S i) = Some b
    /\ 1 <= seg_start b - seg_end a <= 3
    /\ m = gap_moment (seg_end a) (seg_start b).
Proof.
  intros Hm. unfold gap_moments in Hm. apply in_flat_map in Hm.
  destruct Hm as (i & Hi & Hm).
  destruct (index_adjacent _ _ Hi) as (a & b & Ha & Hb).
  rewrite (gap_at_pair _ _ _ _ Ha Hb) in Hm.
  destruct (Qle_bool 1 _ && Qle_bool _ 3) eqn:E; [|destruct Hm].
  destruct Hm as [<-|[]]. apply gap_condition in E.
  exists i, a, b. auto.
Qed.



Lemma gap_at_length (segments : list Segment) (i : nat) :
  (List.length (gap_at segments i) <= 1)%nat.
Proof.
  unfold gap_at, gap_step.
  destruct (Qle_bool 1 _ && Qle_bool _ 3); simpl; lia.
Qed.

Lemma flat_map_length_le {A B} (f : A -> list B) (l : list A) :
  (forall x, (List.length (f x) <= 1)%nat) ->
  (List.length (flat_map f l) <= List.length l)%nat.
Proof.
  intros H. induction l as [|x l IH]; simpl; [lia|].
  rewrite length_app. specialize (H x). lia.
Qed.

(** X6: a transcript of [n] segments gives at most [n] high_energy
    moments and at most [n - 1] reaction_gap moments. *)
Theorem moments_count (segments : list Segment) :
  (List.length (filter is_high_energy (moments_of segments))
   <= List.length segments)%nat
  /\ (List.length (filter is_reaction_gap (moments_of segments))
      <= List.length segments - 1)%nat
  /\ (List.length (moments_of segments)
      <= 2 * List.length segments - 1)%nat.
Proof.
  rewrite high_energy_part, reaction_gap_part, moments_of_spec, length_app.
  rewrite length_map.
  assert (H1 := filter_length_le qualifies segments).
  assert (H2 : (List.length (gap_moments segments)
                <= List.length segments - 1)%nat).
  { unfold gap_moments.
    etransitivity; [apply flat_map_length_le, gap_at_length|].
    now rewrite length_seq. }
  lia.
Qed.

(** ** The order in which moments are processed *)

Lemma insert_desc_app (x : Moment) (l l2 : list Moment) :
  (forall y, In y l2 -> (m_energy_score y <= m_energy_score x)%Z) ->
  Py.insert_desc m_energy_score x (l ++ l2)
  = (Py.insert_desc m_energy_score x l ++ l2)%list.
Proof.
  intros H. induction l as [|a l IH]; simpl.
  - destruct l2 as [|y l2]; [reflexivity|]. simpl.
    assert (E : (m_energy_score y <=? m_energy_score x)%Z = true)
      by (apply Z.leb_le, H; now left).
    now rewrite E.
  - destruct (m_energy_score a <=? m_energy_score x)%Z; [reflexivity|].
    simpl. now rewrite IH.
Qed.

Lemma sorted_desc_constant (k : Z) (l : list Moment) :
  (forall y, In y l -> m_energy_score y = k) ->
  Py.sorted_desc m_energy_score l = l.
Proof.
  induction l as [|a l IH]; intros H; simpl; [reflexivity|].
  rewrite IH by (intros y Hy; apply H; now right).
  destruct l as [|b l]; [reflexivity|]. simpl.
  rewrite (H a), (H b) by (simpl; auto). now rewrite Z.leb_refl.
Qed.

Lemma sorted_desc_app (l1 l2 : list Moment) :
  (forall x y, In x l1 -> In y l2 ->
               (m_energy_score y <= m_energy_score x)%Z) ->
  Py.sorted_desc m_energy_score l2 = l2 ->
  Py.sorted_desc m_energy_score (l1 ++ l2)
  = (Py.sorted_desc m_energy_score l1 ++ l2)%list.
Proof.
  intros H H2. induction l1 as [|a l1 IH]; simpl; [exact H2|].
  rewrite IH by (intros x y Hx Hy; apply H; [now right|exact Hy]).
  apply insert_desc_app. intros y Hy. apply H; [now left|exact Hy].
Qed.

Lemma gap_moments_score (segments : list Segment) (m : Moment) :
  In m (gap_moments segments) -> m_energy_score m = 1%Z.
Proof.
  intros Hm.
  destruct (gap_moments_char _ _ Hm) as (i & a & b & _ & _ & _ & ->).
  reflexivity.
Qed.

(** X7: the selection loop goes through all the high_energy moments, by
    descending score, before any reaction_gap moment, and through the
    reaction_gap moments in transcript order. *)
Theorem processing_order (segments : list Segment) :
  Py.sorted_desc m_energy_score (moments_of segments)
  = (Py.sorted_desc m_energy_score
       (map high_energy_moment (filter qualifies segments))
     ++ gap_moments segments)%list.
Proof.
  rewrite moments_of_spec. apply sorted_desc_app.
  - intros x y Hx Hy. rewrite (gap_moments_score _ _ Hy).
    apply in_map_iff in Hx as (seg & <- & Hs).
    apply filter_In in Hs as [_ Hq]. unfold qualifies in Hq.
    apply Z.leb_le in Hq. simpl. lia.
  - apply (sorted_desc_constant 1). apply gap_moments_score.
Qed.

Lemma insert_desc_perm (x : Moment) (l : list Moment) :
  Permutation (Py.insert_desc m_energy_score x l) (x :: l).
Proof.
  induction l as [|a l IH]; simpl; [reflexivity|].
  destruct (m_energy_score a <=? m_energy_score x)%Z; [reflexivity|].
  rewrite IH. apply perm_swap.
Qed.

Lemma insert_desc_filter (k : Z) (x : Moment) (l : list Moment) :
  filter (fun m => (m_energy_score m =? k)%Z)
    (Py.insert_desc m_energy_score x l)
  = filter (fun m => (m_energy_score m =? k)%Z) (x :: l).
Proof.
  induction l as [|a l IH]; [reflexivity|].
  cbn [Py.insert_desc].
  destruct (m_energy_score a <=? m_energy_score x)%Z eqn:E; [reflexivity|].
  apply Z.leb_gt in E. cbn [filter] in *. rewrite IH.
  destruct (m_energy_score x =? k)%Z eqn:Ex; [|reflexivity].
  apply Z.eqb_eq in Ex.
  assert (Ea : (m_energy_score a =? k)%Z = false) by (apply Z.eqb_neq; lia).
  now rewrite Ea.
Qed.

(** X8: sorting the moments by descending score keeps every moment, each
    as many times as it occurs, puts scores in descending order, and keeps
    moments of equal score in the order they were found. *)
Theorem sort_is_stable (moments : list Moment) :
  Permutation (Py.sorted_desc m_energy_score moments) moments
  /\ StronglySorted score_ge (Py.sorted_desc m_energy_score moments)
  /\ forall k,
       filter (fun m => (m_energy_score m =? k)%Z)
         (Py.sorted_desc m_energy_score moments)
       = filter (fun m => (m_energy_score m =? k)%Z) moments.
Proof.
  split; [|split; [apply sorted_desc_sorted|]].
  - induction moments as [|a l IH]; simpl; [constructor|].
    rewrite insert_desc_perm. now constructor.
  - intros k. induction moments as [|a l IH]; [reflexivity|].
    cbn [Py.sorted_desc fold_right]. rewrite insert_desc_filter.
    cbn [filter]. fold (Py.sorted_desc m_energy_score l). now rewrite IH.
Qed.

(** ** What the selection loop accepts *)

Lemma select_loop_extends (segments : list Segment) (mn mx : Z)
  (ms : list Moment) (clips : list Clip) (c : Clip) :
  In c clips -> In c (select_loop segments mn mx ms clips).
Proof.
  destruct (select_loop_accepts segments mn mx ms clips) as (acc & _ & ->).
  intros H. apply in_app_iff. now left.
Qed.

Lemma select_loop_grows (segments : list Segment) (mn mx : Z)
  (ms : list Moment) (clips : list Clip) :
  (List.length clips
   <= List.length (select_loop segments mn mx ms clips))%nat.
Proof.
  destruct (select_loop_accepts segments mn mx ms clips) as (acc & _ & ->).
  rewrite length_app. lia.
Qed.

Lemma select_loop_maximal (segments : list Segment) (mn mx : Z)
  (ms : list Moment) (clips : list Clip) (m : Moment) :
  In m ms ->
  In (clip_of segments mn mx m) (select_loop segments mn mx ms clips)
  \/ (5 <= List.length (select_loop segments mn mx ms clips))%nat
  \/ exists c,
       In c (select_loop segments mn mx ms clips)
       /\ overlap_test (fst (window segments mn mx m))
            (snd (window segments mn mx m)) c = true.
Proof.
  revert clips. induction ms as [|m0 ms IH]; intros clips Hm; [destruct Hm|].
  cbn [select_loop].
  destruct (5 <=? List.length clips)%nat eqn:E5.
  { right; left. now apply Nat.leb_le. }
  destruct Hm as [->|Hm].
  - destruct (window segments mn mx m) as [s e] eqn:Ew. cbn [fst snd].
    destruct (overlap s e clips) eqn:Eo.
    + right; right. unfold overlap in Eo.
      apply existsb_exists in Eo as (c & Hc & Ht).
      exists c. split; [now apply select_loop_extends|exact Ht].
    + left. apply select_loop_extends, in_app_iff. right. left.
      unfold clip_of. now rewrite Ew.
  - destruct (window segments mn mx m0) as [s e].
    destruct (overlap s e clips); now apply IH.
Qed.

(** X9: the selection is greedy and maximal: for every moment found,
    either its window is among the clips returned, or five clips were
    returned, or its window overlaps one of the clips returned. *)
Theorem selection_maximal (transcript : list Segment) (mn mx : Z)
  (m : Moment) :
  In m (moments_of transcript) ->
  In (clip_of transcript mn mx m) (find_viral_moments transcript mn mx)
  \/ List.length (find_viral_moments transcript mn mx) = 5%nat
  \/ exists c,
       In c (find_viral_moments transcript mn mx)
       /\ overlap_test (fst (window transcript mn mx m))
            (snd (window transcript mn mx m)) c = true.
Proof.
  intros Hm. pose proof (find_viral_moments_length transcript mn mx) as H5.
  unfold find_viral_moments in *. destruct transcript as [|s rest].
  - destruct Hm.
  - apply sorted_desc_In in Hm.
    destruct (select_loop_maximal (s :: rest) mn mx _ [] m Hm)
      as [H|[H|H]]; [now left| right; left; lia | now right; right].
Qed.

Lemma selection_maximal_witness :
  In (clip_of two_hits 15 60 (mkMoment 30 31 "omg!" 3 high_energy))
     (find_viral_moments two_hits 15 60)
  \/ List.length (find_viral_moments two_hits 15 60) = 5%nat
  \/ exists c,
       In c (find_viral_moments two_hits 15 60)
       /\ overlap_test
            (fst (window two_hits 15 60
                    (mkMoment 30 31 "omg!" 3 high_energy)))
            (snd (window two_hits 15 60
                    (mkMoment 30 31 "omg!" 3 high_energy))) c = true.
Proof.
  apply (selection_maximal two_hits 15 60
           (mkMoment 30 31 "omg!" 3 high_energy)).
  vm_compute. right; left; reflexivity.
Defined.

(** X10: clips are returned exactly when moments are found, and the first
    clip returned is the window of the moment processed first, whose score
    no other moment exceeds. *)
Theorem first_clip_is_top_moment (transcript : list Segment) (mn mx : Z) :
  (find_viral_moments transcript mn mx = [] <-> moments_of transcript = [])
  /\ (forall m rest,
         Py.sorted_desc m_energy_score (moments_of transcript) = m :: rest ->
         (exists others,
             find_viral_moments transcript mn mx
             = clip_of transcript mn mx m :: others)
         /\ forall m', In m' (moments_of transcript) ->
                       (m_energy_score m' <= m_energy_score m)%Z).
Proof.
  assert (Hfirst : forall m rest,
             Py.sorted_desc m_energy_score (moments_of transcript)
             = m :: rest ->
             exists others,
               find_viral_moments transcript mn mx
               = clip_of transcript mn mx m :: others).
  { intros m rest Hs. unfold find_viral_moments.
    destruct transcript as [|s segs]; [discriminate Hs|].
    rewrite Hs. cbn [select_loop List.length Nat.leb overlap existsb].
    destruct (window (s :: segs) mn mx m) as [st en] eqn:Ew.
    destruct (select_loop_accepts (s :: segs) mn mx rest
                ([] ++ [make_clip (s :: segs) st en m])%list)
      as (acc & _ & ->).
    exists (map (clip_of (s :: segs) mn mx) acc).
    unfold clip_of. rewrite Ew. reflexivity. }
  split; [split|].
  - intros Hnil.
    destruct (Py.sorted_desc m_energy_score (moments_of transcript))
      as [|m rest] eqn:Es.
    + apply length_zero_iff_nil. rewrite <- sorted_desc_length, Es.
      reflexivity.
    + destruct (Hfirst m rest eq_refl) as (others & Ho). congruence.
  - intros Hnil. unfold find_viral_moments.
    destruct transcript; [reflexivity|]. now rewrite Hnil.
  - intros m rest Hs. split; [eauto|].
    intros m' Hm'. apply sorted_desc_In in Hm'.
    pose proof (sorted_desc_sorted (moments_of transcript)) as Hsorted.
    rewrite Hs in Hm', Hsorted. destruct Hm' as [<-|Hm']; [lia|].
    inversion Hsorted as [|? ? _ Hall]; subst.
    rewrite Forall_forall in Hall. exact (Hall _ Hm').
Qed.

Lemma first_clip_is_top_moment_witness :
  exists others,
    find_viral_moments two_hits 15 60
    = clip_of two_hits 15 60 (mkMoment 0 1 "wow!" 3 high_energy) :: others.
Proof.
  apply (proj1 (proj2 (first_clip_is_top_moment two_hits 15 60)
                  (mkMoment 0 1 "wow!" 3 high_energy)
                  [mkMoment 30 31 "omg!" 3 high_energy] eq_refl)).
Defined.

(** ** Windows on a well-formed transcript *)

Lemma last_In {A} (l : list A) (d : A) : l <> [] -> In (last l d) l.
Proof.
  induction l as [|x l IH]; [congruence|]. intros _.
  destruct l as [|y l]; [now left|].
  right. apply IH. discriminate.
Qed.

Lemma moment_bounds (transcript : list Segment) (m : Moment) :
  well_formed transcript ->
  In m (moments_of transcript) ->
  0 <= m_start m
  /\ m_start m <= m_end m
  /\ m_start m <= last_end transcript (m_end m)
  /\ 0 <= last_end transcript (m_end m).
Proof.
  intros Hwf Hm.
  assert (Hne : transcript <> []).
  { intros ->. destruct Hm. }
  assert (Hlast : last_end transcript (m_end m)
                  = seg_end (last transcript dummy_segment)).
  { destruct transcript; [congruence|reflexivity]. }
  assert (H0 : 0 <= seg_end (last transcript dummy_segment)).
  { destruct (Hwf _ (last_In transcript dummy_segment Hne))
      as (H1 & H2 & _). lra. }
  rewrite Hlast. rewrite moments_of_spec, in_app_iff in Hm.
  destruct Hm as [Hm|Hm].
  - apply in_map_iff in Hm as (seg & <- & Hs).
    apply filter_In in Hs as [Hin _].
    destruct (Hwf _ Hin) as (H1 & H2 & H3). simpl. auto.
  - destruct (gap_moments_char _ _ Hm) as (i & a & b & Ha & Hb & Hg & ->).
    apply nth_error_In in Ha, Hb.
    destruct (Hwf _ Ha) as (Ha1 & Ha2 & _).
    destruct (Hwf _ Hb) as (_ & _ & Hb3).
    simpl. repeat split; try assumption; lra.
Qed.

Lemma window_arith (segments : list Segment) (mn mx : Z) (m : Moment) :
  0 <= m_start m ->
  m_start m <= m_end m ->
  m_start m <= last_end segments (m_end m) ->
  0 <= last_end segments (m_end m) ->
  (0 <= mx)%Z ->
  0 <= fst (window segments mn mx m)
  /\ fst (window segments mn mx m) <= snd (window segments mn mx m)
  /\ fst (window segments mn mx m) <= m_start m
  /\ ((mn <= mx)%Z -> m_start m <= snd (window segments mn mx m)).
Proof.
  intros H0 Hse HsL HL Hmx.
  assert (Hmx' : 0 <= inject_Z mx) by (now rewrite (Zle_Qle 0 mx) in Hmx).
  assert (Hle : (mn <= mx)%Z -> inject_Z mn <= inject_Z mx)
    by (intros H; now rewrite Zle_Qle in H).
  unfold window, extend_window, cap_window, Py.max, Py.min.
  set (L := last_end segments (m_end m)) in *.
  set (ext := (inject_Z mn - (m_end m - m_start m)) / 2) in *.
  assert (Hext : 2 * ext == inject_Z mn - (m_end m - m_start m))
    by (unfold ext; field).
  destruct (Py.Qltb (m_end m - m_start m) (inject_Z mn)) eqn:Eshort.
  - apply Qltb_lt in Eshort.
    destruct (Py.Qltb 0 (m_start m - ext)) eqn:E1;
      destruct (Py.Qltb (m_end m + ext) L) eqn:E2;
      cbn [fst snd];
      match goal with
      | |- context [Py.Qltb ?a ?b] => destruct (Py.Qltb a b) eqn:E3
      end; qbool;
      (repeat split; [lra|lra|lra|intros Hm; specialize (Hle Hm); lra]).
  - apply Qltb_ge in Eshort. cbn [fst snd].
    match goal with
    | |- context [Py.Qltb ?a ?b] => destruct (Py.Qltb a b) eqn:E3
    end; qbool;
    (repeat split; [lra|lra|lra|intros Hm; specialize (Hle Hm); lra]).
Qed.

Lemma clip_bounds (transcript : list Segment) (mn mx : Z) (c : Clip) :
  well_formed transcript ->
  (0 <= mx)%Z ->
  In c (find_viral_moments transcript mn mx) ->
  0 <= c_start c /\ c_start c <= c_end c /\ 0 <= c_duration c.
Proof.
  intros Hwf Hmx Hc.
  destruct (find_viral_moments_origin _ _ _ _ Hc) as (m & Hm & ->).
  destruct (moment_bounds _ _ Hwf Hm) as (H0 & Hse & HsL & HL).
  destruct (window_arith transcript mn mx m H0 Hse HsL HL Hmx)
    as (W0 & Wse & _ & _).
  unfold clip_of, make_clip; cbn [c_start c_end c_duration].
  repeat split; [exact W0|exact Wse|lra].
Qed.

(** X11: on a well-formed transcript and with a non-negative maximum
    duration, every clip returned starts at or after time 0 and does not
    end before it starts, so its duration is not negative. *)
Theorem clips_well_formed (transcript : list Segment) (mn mx : Z) (c : Clip) :
  well_formed transcript ->
  (0 <= mx)%Z ->
  In c (find_viral_moments transcript mn mx) ->
  0 <= c_start c /\ c_start c <= c_end c /\ 0 <= c_duration c.
Proof. apply clip_bounds. Qed.

Lemma clips_well_formed_witness :
  0 <= c_start (nth 1 (find_viral_moments two_hits 15 60) no_clip)
  /\ c_start (nth 1 (find_viral_moments two_hits 15 60) no_clip)
     <= c_end (nth 1 (find_viral_moments two_hits 15 60) no_clip)
  /\ 0 <= c_duration (nth 1 (find_viral_moments two_hits 15 60) no_clip).
Proof.
  apply (clips_well_formed two_hits 15 60).
  - intros s [<-|[<-|[<-|[]]]]; vm_compute; repeat split; discriminate.
  - lia.
  - vm_compute. right; left; reflexivity.
Defined.

Lemma clip_trigger_segment (transcript : list Segment) (mn mx : Z)
  (c : Clip) :
  well_formed transcript ->
  (0 <= mx)%Z ->
  (mn <= mx)%Z ->
  In c (find_viral_moments transcript mn mx) ->
  c_segments c <> []
  /\ (c_reason c = high_energy ->
      exists seg,
        In seg (c_segments c)
        /\ (2 <= energy_score seg)%Z
        /\ c_start c <= seg_start seg /\ seg_start seg <= c_end c)
  /\ (c_reason c = reaction_gap ->
      exists seg,
        In seg (c_segments c)
        /\ c_start c <= seg_end seg /\ seg_end seg <= c_end c).
Proof.
  intros Hwf Hmx Hmn Hc.
  destruct (find_viral_moments_origin _ _ _ _ Hc) as (m & Hm & ->).
  destruct (moment_bounds _ _ Hwf Hm) as (H0 & Hse & HsL & HL).
  destruct (window_arith transcript mn mx m H0 Hse HsL HL Hmx)
    as (_ & _ & Ws & We).
  specialize (We Hmn).
  unfold clip_of, make_clip; cbn [c_start c_end c_segments c_reason].
  set (s := fst (window transcript mn mx m)) in *.
  set (e := snd (window transcript mn mx m)) in *.
  rewrite moments_of_spec, in_app_iff in Hm. destruct Hm as [Hm|Hm].
  - apply in_map_iff in Hm as (seg & <- & Hs).
    apply filter_In in Hs as [Hin Hq]. unfold qualifies in Hq.
    apply Z.leb_le in Hq. cbn [m_start high_energy_moment m_reason] in *.
    assert (Hseg : In seg (filter (in_window s e) transcript)).
    { apply filter_In. split; [exact Hin|].
      apply in_window_iff. left. auto. }
    split; [intros Hnil; rewrite Hnil in Hseg; destruct Hseg|].
    split; [intros _; exists seg; auto|discriminate].
  - destruct (gap_moments_char _ _ Hm) as (i & a & b & Ha & _ & _ & ->).
    apply nth_error_In in Ha. cbn [m_start gap_moment m_reason] in *.
    assert (Hseg : In a (filter (in_window s e) transcript)).
    { apply filter_In. split; [exact Ha|].
      apply in_window_iff. right. auto. }
    split; [intros Hnil; rewrite Hnil in Hseg; destruct Hseg|].
    split; [discriminate|intros _; exists a; auto].
Qed.

(** X12: on a well-formed transcript and with
    [0 <= max_duration] and [min_duration <= max_duration], every clip
    returned holds at least one segment: a high_energy clip holds the
    segment that scored, whose start lies in the window, and a reaction_gap
    clip holds the segment that ends where the gap starts. *)
Theorem clip_holds_its_trigger (transcript : list Segment) (mn mx : Z)
  (c : Clip) :
  well_formed transcript ->
  (0 <= mx)%Z ->
  (mn <= mx)%Z ->
  In c (find_viral_moments transcript mn mx) ->
  c_segments c <> []
  /\ (c_reason c = high_energy ->
      exists seg,
        In seg (c_segments c)
        /\ (2 <= energy_score seg)%Z
        /\ c_start c <= seg_start seg /\ seg_start seg <= c_end c)
  /\ (c_reason c = reaction_gap ->
      exists seg,
        In seg (c_segments c)
        /\ c_start c <= seg_end seg /\ seg_end seg <= c_end c).
Proof. apply clip_trigger_segment. Qed.

Lemma clip_holds_its_trigger_witness :
  c_segments (nth 0 (find_viral_moments two_hits 15 60) no_clip) <> [].
Proof.
  apply (clip_holds_its_trigger two_hits 15 60).
  - intros s [<-|[<-|[<-|[]]]]; vm_compute; repeat split; discriminate.
  - lia.
  - lia.
  - vm_compute. left; reflexivity.
Defined.

(** ** Timestamps *)

Lemma pad_reads_spec (width bound : nat) (n : Z) :
  pad_reads width bound = true ->
  (0 <= n < Z.of_nat bound)%Z ->
  String.length (Py.zero_pad width n) = width
  /\ read_dec (Py.zero_pad width n) 0 = Some n.
Proof.
  unfold pad_reads. rewrite forallb_forall. intros H Hn.
  specialize (H (Z.to_nat n)). rewrite Z2Nat.id in H by lia.
  assert (Hin : In (Z.to_nat n) (seq 0 bound)) by (apply in_seq; lia).
  apply H, andb_true_iff in Hin as [Hlen Hread].
  apply Nat.eqb_eq in Hlen. split; [exact Hlen|].
  destruct (read_dec _ 0) as [v|]; [|discriminate].
  apply Z.eqb_eq in Hread. now subst.
Qed.

Lemma pad2 (n : Z) :
  (0 <= n < 100)%Z ->
  exists c1 c2,
    Py.zero_pad 2 n = String c1 (String c2 "")
    /\ read_dec (String c1 (String c2 "")) 0 = Some n.
Proof.
  intros Hn.
  destruct (pad_reads_spec 2 100 n) as [Hlen Hread];
    [vm_compute; reflexivity|exact Hn|].
  destruct (Py.zero_pad 2 n) as [|c1 [|c2 [|c3 s]]]; try discriminate.
  eauto.
Qed.

Lemma pad3 (n : Z) :
  (0 <= n < 1000)%Z ->
  exists c1 c2 c3,
    Py.zero_pad 3 n = String c1 (String c2 (String c3 ""))
    /\ read_dec (String c1 (String c2 (String c3 ""))) 0 = Some n.
Proof.
  intros Hn.
  destruct (pad_reads_spec 3 1000 n) as [Hlen Hread];
    [vm_compute; reflexivity|exact Hn|].
  destruct (Py.zero_pad 3 n) as [|c1 [|c2 [|c3 [|c4 s]]]]; try discriminate.
  eauto.
Qed.

Lemma format_time_fields (x : Q) :
  _format_time x
  = let '(h, m, s, ms) := time_fields x in
    Py.zero_pad 2 h ++ ":" ++ Py.zero_pad 2 m ++ ":"
    ++ Py.zero_pad 2 s ++ "," ++ Py.zero_pad 3 ms.
Proof.
  unfold _format_time, time_fields. now destruct (timedelta x).
Qed.

Lemma time_fields_range (x : Q) :
  let '(h, m, s, ms) := time_fields x in
  (0 <= h < 24 /\ 0 <= m < 60 /\ 0 <= s < 60 /\ 0 <= ms < 1000)%Z
  /\ (h * 3600000 + m * 60000 + s * 1000 + ms
      = (Py.round_half_even (x * 1000000) / 1000) mod 86400000)%Z.
Proof.
  unfold time_fields, timedelta.
  generalize (Py.round_half_even (x * 1000000)). intros us.
  Z.div_mod_to_equations. lia.
Qed.


Lemma Qfloor_unique (y : Q) (n : Z) :
  inject_Z n <= y -> y < inject_Z (n + 1) -> Qfloor y = n.
Proof.
  intros Hle Hlt.
  assert (H1 : (n <= Qfloor y)%Z).
  { apply Qfloor_resp_le in Hle. now rewrite Qfloor_Z in Hle. }
  assert (H2 : (Qfloor y < n + 1)%Z).
  { rewrite Zlt_Qlt. eapply Qle_lt_trans; [apply Qfloor_le|exact Hlt]. }
  lia.
Qed.

Lemma Qfloor_shift (x : Q) (k : Z) :
  Qfloor (x + inject_Z k) = (Qfloor x + k)%Z.
Proof.
  apply Qfloor_unique.
  - rewrite inject_Z_plus. pose proof (Qfloor_le x). lra.
  - replace (Qfloor x + k + 1)%Z with ((Qfloor x + 1) + k)%Z by lia.
    rewrite inject_Z_plus. pose proof (Qlt_floor x). lra.
Qed.

Lemma Qltb_comp (a a' b b' : Q) :
  a == a' -> b == b' -> Py.Qltb a b = Py.Qltb a' b'.
Proof. intros Ha Hb. unfold Py.Qltb. now rewrite Ha, Hb. Qed.

Lemma round_half_even_shift (x y : Q) (k : Z) :
  y == x + inject_Z k ->
  Z.even k = true ->
  Py.round_half_even y = (Py.round_half_even x + k)%Z.
Proof.
  intros Hy Hk. unfold Py.round_half_even.
  assert (Hf : Qfloor y = (Qfloor x + k)%Z)
    by (rewrite Hy; apply Qfloor_shift).
  rewrite Hf.
  assert (Hr : y - inject_Z (Qfloor x + k) == x - inject_Z (Qfloor x))
    by (rewrite Hy, inject_Z_plus; ring).
  rewrite (Qltb_comp _ _ _ _ Hr (Qeq_refl (1 # 2))).
  rewrite (Qltb_comp _ _ _ _ (Qeq_refl (1 # 2)) Hr).
  rewrite Z.even_add, Hk.
  destruct (Py.Qltb _ (1 # 2)); [reflexivity|].
  destruct (Py.Qltb (1 # 2) _); [lia|].
  destruct (Z.even (Qfloor x)); simpl; lia.
Qed.


(** ** The subtitle file *)

Lemma concat_nil_cons (s : string) (l : list string) :
  String.concat "" (s :: l) = s ++ String.concat "" l.
Proof.
  destruct l as [|x l]; simpl; [|reflexivity].
  induction s; simpl; congruence.
Qed.



(** ** The pipeline *)

Lemma find_viral_moments_nil_iff (transcript : list Segment) (mn mx : Z) :
  find_viral_moments transcript mn mx = [] <-> moments_of transcript = [].
Proof.
  split.
  - intros Hnil.
    destruct (Py.sorted_desc m_energy_score (moments_of transcript))
      as [|m rest] eqn:Es.
    + apply length_zero_iff_nil. rewrite <- sorted_desc_length, Es.
      reflexivity.
    + exfalso. unfold find_viral_moments in Hnil.
      destruct transcript as [|s segs]; [discriminate Es|].
      rewrite Es in Hnil.
      cbn [select_loop List.length Nat.leb overlap existsb] in Hnil.
      destruct (window (s :: segs) mn mx m) as [st en].
      pose proof (select_loop_grows (s :: segs) mn mx rest
                    ([] ++ [make_clip (s :: segs) st en m])%list) as Hg.
      rewrite Hnil in Hg. simpl in Hg. lia.
  - intros Hnil. unfold find_viral_moments.
    destruct transcript; [reflexivity|]. now rewrite Hnil.
Qed.

Lemma slice_to_nil {A} (k : Z) : Py.slice_to (@nil A) k = [].
Proof.
  unfold Py.slice_to. destruct (0 <=? k)%Z; apply firstn_nil.
Qed.

Lemma process_vod_unfold (ffmpeg_exit : nat -> bool) (download_ok : bool)
  (transcribed : list Segment) (timestamp output_dir video_path : string)
  (url : string) (clip_duration : Z * Z) (max_clips : Z) (w : World) :
  process_vod ffmpeg_exit download_ok transcribed timestamp output_dir
    video_path url clip_duration max_clips w
  = render_loop ffmpeg_exit timestamp output_dir video_path url
      (Py.enumerate
         (if download_ok
          then Py.slice_to
                 (find_viral_moments transcribed
                    (fst clip_duration) (snd clip_duration))
                 max_clips
          else [])
         1)
      [] w.
Proof.
  unfold process_vod. destruct download_ok; [|reflexivity]. cbn [negb].
  destruct transcribed as [|s rest] eqn:Et.
  - simpl. now rewrite slice_to_nil.
  - rewrite <- Et.
    destruct (find_viral_moments transcribed _ _) eqn:Ef; [|reflexivity].
    now rewrite slice_to_nil.
Qed.

(** X16: when the download fails, or when no moment is found in the
    transcript (an empty transcript included), [process_vod] returns no
    clip and neither invokes the renderer nor writes a metadata file. *)
Theorem process_vod_gives_up_early (ffmpeg_exit : nat -> bool)
  (download_ok : bool) (transcribed : list Segment)
  (timestamp output_dir video_path url : string) (clip_duration : Z * Z)
  (max_clips : Z) (w : World) :
  download_ok = false \/ moments_of transcribed = [] ->
  process_vod ffmpeg_exit download_ok transcribed timestamp output_dir
    video_path url clip_duration max_clips w
  = ([], w).
Proof.
  intros H. rewrite process_vod_unfold.
  assert (Hsel : (if download_ok
                  then Py.slice_to
                         (find_viral_moments transcribed
                            (fst clip_duration) (snd clip_duration))
                         max_clips
                  else []) = []).
  { destruct H as [->|Hm]; [reflexivity|].
    destruct download_ok; [|reflexivity].
    apply (find_viral_moments_nil_iff _ (fst clip_duration)
             (snd clip_duration)) in Hm.
    rewrite Hm. apply slice_to_nil. }
  rewrite Hsel. reflexivity.
Qed.

Lemma process_vod_gives_up_early_witness :
  process_vod (fun _ => true) true [spoke] "20250101_120000" "./clips"
    "vod.mp4" "https://www.twitch.tv/videos/1" (15, 60)%Z 5 empty_world
  = ([], empty_world).
Proof.
  apply process_vod_gives_up_early. right. vm_compute; reflexivity.
Defined.

Lemma slice_to_In {A} (xs : list A) (k : Z) (x : A) :
  In x (Py.slice_to xs k) -> In x xs.
Proof.
  destruct (slice_to_prefix xs k) as [n ->]. intros H.
  rewrite <- (firstn_skipn n xs). apply in_app_iff. now left.
Qed.

Lemma slice_to_length {A} (xs : list A) (k : Z) :
  (List.length (Py.slice_to xs k) <= List.length xs)%nat.
Proof.
  destruct (slice_to_prefix xs k) as [n ->]. rewrite length_firstn. lia.
Qed.

Lemma enumerate_length {A} (xs : list A) (start : Z) :
  List.length (Py.enumerate xs start) = List.length xs.
Proof.
  revert start. induction xs as [|x xs IH]; intros start; simpl;
    [reflexivity|].
  now rewrite IH.
Qed.

Lemma enumerate_In {A} (xs : list A) (start : Z) (item : Z * A) :
  In item (Py.enumerate xs start) ->
  In (snd item) xs
  /\ (start <= fst item < start + Z.of_nat (List.length xs))%Z.
Proof.
  revert start. induction xs as [|x xs IH]; intros start; simpl; [tauto|].
  intros [<-|H].
  - simpl. split; [now left|lia].
  - apply IH in H as [Hin Hr]. split; [now right|lia].
Qed.



Lemma rendered_length {A} (f : nat -> bool) (n : nat) (items : list A) :
  (List.length (rendered f n items) <= List.length items)%nat.
Proof. apply Subseq_length, rendered_Subseq. Qed.

(** X18: whatever [max_clips] and whatever the renderer answers, one run
    of [process_vod] invokes the renderer at most five times, returns at
    most as many clips as it made invocations, and writes exactly one
    metadata file for each clip it returns. *)
Theorem process_vod_counts (ffmpeg_exit : nat -> bool) (download_ok : bool)
  (transcribed : list Segment)
  (timestamp output_dir video_path url : string) (clip_duration : Z * Z)
  (max_clips : Z) :
  let run :=
    process_vod ffmpeg_exit download_ok transcribed timestamp output_dir
      video_path url clip_duration max_clips empty_world in
  (List.length (calls (snd run)) <= 5)%nat
  /\ (List.length (fst run) <= List.length (calls (snd run)))%nat
  /\ List.length (sidecars (snd run)) = List.length (fst run).
Proof.
  intros run. subst run. rewrite process_vod_unfold, render_loop_spec.
  cbn [fst snd sidecars calls empty_world List.length app].
  rewrite !length_map, enumerate_length.
  split; [|split; [|reflexivity]].
  - destruct download_ok; [|simpl; lia].
    etransitivity; [apply slice_to_length|].
    apply find_viral_moments_length.
  - etransitivity; [apply rendered_length|]. now rewrite enumerate_length.
Qed.

(** ** The upload job *)

Lemma upload_loop_spec (ffmpeg_exit : nat -> bool)
  (job_id clip_folder filepath : string) (items : list (Z * Clip))
  (output_files : list string) (w : World) :
  upload_loop ffmpeg_exit job_id clip_folder filepath items output_files w
  = ((output_files
      ++ map (fun item => output_path_of job_id clip_folder (fst item))
           (rendered ffmpeg_exit (List.length (calls w)) items))%list,
     mkWorld (calls w ++ map (call_of job_id clip_folder filepath) items)
       (sidecars w)).
Proof.
  revert output_files w.
  induction items as [|[i clip] rest IH]; intros output_files w.
  - simpl. unfold ret. rewrite !app_nil_r. now destruct w.
  - cbn [upload_loop rendered map]. unfold bind at 1.
    unfold create_vertical_video, run_ffmpeg.
    assert (Hcall :
              mkCall filepath (output_path_of job_id clip_folder i)
                (c_start clip) (c_end clip - c_start clip)
                match c_segments clip with
                | [] => None
                | _ :: _ => Some (_create_srt (c_segments clip) (c_start clip))
                end
              = call_of job_id clip_folder filepath (i, clip))
      by reflexivity.
    rewrite Hcall.
    destruct (ffmpeg_exit (List.length (calls w)));
      rewrite IH; cbn [calls sidecars fst];
      rewrite length_app, Nat.add_1_r, <- !app_assoc; reflexivity.
Qed.

(** X19: the upload job never writes a metadata file.  With an empty
    transcript it fails with an error message, invokes no renderer and
    leaves the uploaded file in place; otherwise it invokes the renderer
    once for each selected window, removes the uploaded file, records the
    paths of the successful renders, sets no error message, and ends
    [completed] exactly when at least one render succeeded. *)
Theorem upload_job_behaviour (ffmpeg_exit : nat -> bool)
  (transcribed : list Segment) (job_id clip_folder filepath : string)
  (options : Options) (w : World) :
  let run :=
    process_upload_job ffmpeg_exit transcribed job_id clip_folder filepath
      options w in
  let items :=
    Py.enumerate
      (Py.slice_to
         (find_viral_moments transcribed
            (get (opt_min_duration options) 15%Z)
            (get (opt_max_duration options) 60%Z))
         (get (opt_max_clips options) 5%Z)) 1 in
  sidecars (snd run) = sidecars w
  /\ (status (up_job (fst run)) = completed
      <-> job_clips (up_job (fst run)) <> [])
  /\ (status (up_job (fst run)) = failed
      <-> job_clips (up_job (fst run)) = [])
  /\ (transcribed = [] ->
      snd run = w
      /\ up_removed (fst run) = []
      /\ error (up_job (fst run)) = Some "No audio/transcription available")
  /\ (transcribed <> [] ->
      up_removed (fst run) = [filepath]
      /\ error (up_job (fst run)) = None
      /\ calls (snd run)
         = (calls w ++ map (call_of job_id clip_folder filepath) items)%list
      /\ job_clips (up_job (fst run))
         = map (fun item => output_path_of job_id clip_folder (fst item))
             (rendered ffmpeg_exit (List.length (calls w)) items)).
Proof.
  intros run items. subst run items. unfold process_upload_job.
  destruct transcribed as [|s rest].
  - unfold ret. cbn [fst snd up_job up_removed status job_clips error].
    repeat split; try congruence; try discriminate;
      try (intros H; now elim H).
  - set (T := s :: rest). unfold bind. rewrite upload_loop_spec.
    unfold ret. cbn [fst snd up_job up_removed status job_clips error
                     sidecars calls app].
    split; [reflexivity|].
    destruct (map _ (rendered ffmpeg_exit _ _)) as [|p ps].
    + repeat split; try congruence; try discriminate;
        try (intros H; now elim H).
    + repeat split; try congruence; try discriminate;
        try (intros H; now elim H).
Qed.

Lemma upload_job_behaviour_witness :
  up_removed
    (fst (process_upload_job (fun _ => true) two_hits "job-1" "./clips"
            "./uploads/a.mp4" (mkOptions None None None) empty_world))
  = ["./uploads/a.mp4"].
Proof.
  apply (proj2 (proj2 (proj2 (proj2
           (upload_job_behaviour (fun _ => true) two_hits "job-1" "./clips"
              "./uploads/a.mp4" (mkOptions None None None) empty_world))))).
  discriminate.
Defined.

Lemma trim_of_call_of (t1 d1 v1 t2 d2 v2 : string) (item : Z * Clip) :
  trim_of (call_of t1 d1 v1 item) = trim_of (call_of t2 d2 v2 item).
Proof. reflexivity. Qed.

(** X20: for the same transcript, durations, limit and renderer answers,
    a run on a downloaded VOD and an upload job make the same renderer
    invocations, with the same trim ranges and subtitle files, and get the
    same number of clips; only the file names differ. *)
Theorem upload_renders_like_vod (ffmpeg_exit : nat -> bool)
  (transcribed : list Segment)
  (timestamp output_dir video_path url : string)
  (job_id clip_folder filepath : string) (mn mx max_clips : Z) :
  let vod_run :=
    process_vod ffmpeg_exit true transcribed timestamp output_dir video_path
      url (mn, mx) max_clips empty_world in
  let upload_run :=
    process_upload_job ffmpeg_exit transcribed job_id clip_folder filepath
      (mkOptions (Some mn) (Some mx) (Some max_clips)) empty_world in
  map trim_of (calls (snd vod_run)) = map trim_of (calls (snd upload_run))
  /\ List.length (fst vod_run)
     = List.length (job_clips (up_job (fst upload_run))).
Proof.
  intros vod_run upload_run. subst vod_run upload_run.
  rewrite process_vod_unfold, render_loop_spec.
  unfold process_upload_job. cbn [get opt_min_duration opt_max_duration
                                  opt_max_clips fst snd].
  destruct transcribed as [|s rest].
  - unfold find_viral_moments. rewrite slice_to_nil. split; reflexivity.
  - set (T := s :: rest). unfold bind. rewrite upload_loop_spec. unfold ret.
    cbn [fst snd calls empty_world app up_job job_clips List.length].
    rewrite !map_map, !length_map. split; [|reflexivity].
    apply map_ext. intros item. apply trim_of_call_of.
Qed.

(** ** The batch driver *)

Lemma process_vod_list_spec (ffmpeg_exit : nat -> bool) (output_dir : string)
  (vods : list Vod) (all_clips : list string) (w : World) :
  exists more,
    fst (process_vod_list ffmpeg_exit output_dir vods all_clips w)
    = (all_clips ++ more)%list
    /\ (List.length more <= 5 * List.length vods)%nat
    /\ (List.length
          (calls (snd (process_vod_list ffmpeg_exit output_dir vods
                         all_clips w)))
        <= List.length (calls w) + 5 * List.length vods)%nat
    /\ List.length
         (sidecars (snd (process_vod_list ffmpeg_exit output_dir vods
                           all_clips w)))
       = (List.length (sidecars w) + List.length more)%nat.
Proof.
  revert all_clips w. induction vods as [|vod rest IH]; intros all_clips w.
  - exists []. simpl. rewrite app_nil_r. repeat split; lia.
  - cbn [process_vod_list]. unfold bind.
    rewrite process_vod_unfold, render_loop_spec.
    set (selected := if vod_download_ok vod then _ else _).
    set (items := Py.enumerate selected 1).
    set (r := rendered ffmpeg_exit (List.length (calls w)) items).
    assert (H5 : (List.length items <= 5)%nat).
    { subst items selected. rewrite enumerate_length.
      destruct (vod_download_ok vod); [|simpl; lia].
      etransitivity; [apply slice_to_length|].
      apply find_viral_moments_length. }
    assert (Hr : (List.length r <= List.length items)%nat)
      by apply rendered_length.
    cbn [app].
    match goal with
    | |- context [process_vod_list _ _ rest ?acc ?w'] =>
        destruct (IH acc w') as (more & Hfst & Hlen & Hcalls & Hside)
    end.
    cbn [calls sidecars] in Hcalls, Hside.
    rewrite length_app, length_map in Hcalls, Hside.
    exists (map (fun item =>
                   output_path_of (vod_timestamp vod) output_dir (fst item))
              r ++ more)%list.
    rewrite Hfst, <- app_assoc, length_app, length_map.
    cbn [List.length]. repeat split; lia.
Qed.

(** X21: the batch driver only appends to the list of clips, adds at most
    five clips and five renderer invocations for each VOD, and writes one
    metadata file for each clip it adds; a list in which every download
    fails or no moment is found leaves the list of clips and the file
    system as they were. *)
Theorem batch_bounds (ffmpeg_exit : nat -> bool) (output_dir : string)
  (vods : list Vod) (all_clips : list string) (w : World) :
  (exists more,
      fst (process_vod_list ffmpeg_exit output_dir vods all_clips w)
      = (all_clips ++ more)%list
      /\ (List.length more <= 5 * List.length vods)%nat
      /\ (List.length
            (calls (snd (process_vod_list ffmpeg_exit output_dir vods
                           all_clips w)))
          <= List.length (calls w) + 5 * List.length vods)%nat
      /\ List.length
           (sidecars (snd (process_vod_list ffmpeg_exit output_dir vods
                             all_clips w)))
         = (List.length (sidecars w) + List.length more)%nat)
  /\ ((forall vod, In vod vods ->
         vod_download_ok vod = false
         \/ moments_of (vod_transcribed vod) = []) ->
      process_vod_list ffmpeg_exit output_dir vods all_clips w
      = (all_clips, w)).
Proof.
  split; [apply process_vod_list_spec|].
  revert all_clips w. induction vods as [|vod rest IH]; intros all_clips w H;
    [reflexivity|].
  cbn [process_vod_list]. unfold bind. rewrite process_vod_unfold.
  assert (Hsel : (if vod_download_ok vod
                  then Py.slice_to
                         (find_viral_moments (vod_transcribed vod)
                            (fst (get (opt_min_duration (vod_options vod))
                                    15%Z,
                                  get (opt_max_duration (vod_options vod))
                                    60%Z))
                            (snd (get (opt_min_duration (vod_options vod))
                                    15%Z,
                                  get (opt_max_duration (vod_options vod))
                                    60%Z)))
                         (get (opt_max_clips (vod_options vod)) 5%Z)
                  else []) = []).
  { destruct (H vod (or_introl eq_refl)) as [->|Hm]; [reflexivity|].
    destruct (vod_download_ok vod); [|reflexivity].
    cbn [fst snd].
    apply (find_viral_moments_nil_iff _
             (get (opt_min_duration (vod_options vod)) 15%Z)
             (get (opt_max_duration (vod_options vod)) 60%Z)) in Hm.
    rewrite Hm. apply slice_to_nil. }
  rewrite Hsel. cbn [Py.enumerate render_loop]. unfold ret.
  rewrite app_nil_r. apply IH. intros v Hv. apply H. now right.
Qed.

Lemma batch_bounds_witness :
  process_vod_list (fun _ => true) "./clips" [dead_link]
    ["./clips/old.mp4"] empty_world
  = (["./clips/old.mp4"], empty_world).
Proof.
  apply (proj2 (batch_bounds (fun _ => true) "./clips" [dead_link]
                  ["./clips/old.mp4"] empty_world)).
  intros vod [<-|[]]. left; reflexivity.
Defined.

(** ** The URL check *)

Lemma lstrip_all_space (s : string) :
  all_space s = true -> Py.lstrip s = "".
Proof.
  induction s as [|c s IH]; simpl; [reflexivity|].
  intros H. apply andb_true_iff in H as [Hc Hs]. rewrite Hc. auto.
Qed.



(** ** Durations and renderer invocations *)

Lemma window_no_overshoot (segments : list Segment) (mn mx : Z) (m : Moment) :
  (m_end m - m_start m < inject_Z mn ->
   snd (window segments mn mx m) - fst (window segments mn mx m)
   <= inject_Z mn)
  /\ (inject_Z mn <= m_end m - m_start m ->
      fst (window segments mn mx m) = m_start m
      /\ snd (window segments mn mx m) - fst (window segments mn mx m)
         <= m_end m - m_start m).
Proof.
  unfold window, extend_window, cap_window, Py.max, Py.min.
  set (ext := (inject_Z mn - (m_end m - m_start m)) / 2) in *.
  assert (Hext : 2 * ext == inject_Z mn - (m_end m - m_start m))
    by (unfold ext; field).
  destruct (Py.Qltb (m_end m - m_start m) (inject_Z mn)) eqn:Eshort.
  - apply Qltb_lt in Eshort. split; [intros _|intros H; lra].
    destruct (Py.Qltb 0 (m_start m - ext)) eqn:E1;
      destruct (Py.Qltb (m_end m + ext) (last_end segments (m_end m)))
        eqn:E2;
      cbn [fst snd];
      match goal with
      | |- context [Py.Qltb ?a ?b] => destruct (Py.Qltb a b) eqn:E3
      end; qbool; lra.
  - apply Qltb_ge in Eshort. split; [intros H; lra|intros _].
    cbn [fst snd]. split; [reflexivity|].
    match goal with
    | |- context [Py.Qltb ?a ?b] => destruct (Py.Qltb a b) eqn:E3
    end; qbool; lra.
Qed.




